(** * The contract-audit pipeline of the Ethereum tools server

    A shallow embedding of [tools/audit.js]: the orchestrator
    [analyzeAddress], its helpers [checkIfContract],
    [getContractCreationInfo] and [checkIfVerified], and the three
    classifiers [detectContractStandards],
    [detectContractTypeFromBytecode] and [analyzeContractSecurity].

    The node (web3), the explorer (axios against the Etherscan API) and
    the built-ins of the JavaScript runtime that the file calls are not
    part of the repository; they are the fields of a [World] record that
    every function receives.  [async]/[await] is sequential here, so a
    promise is modelled by its outcome: a value or a thrown error.
    Calls to [console.error] leave no trace in any returned value and
    are left out. *)

From Stdlib Require Import String Ascii List ZArith Bool Lia DecimalString.
Import ListNotations.
Open Scope list_scope.
Open Scope string_scope.

Set Implicit Arguments.
Set Warnings "-register-all".

(** ** Outcomes: a value, or a thrown error identified by its message *)

Module Outcome.

Inductive outcome (A : Type) : Type :=
| Ok (a : A)
| Throw (message : string).

Arguments Ok {A} a.
Arguments Throw {A} message.

Definition bind {A B} (m : outcome A) (k : A -> outcome B) : outcome B :=
  match m with
  | Ok a => k a
  | Throw e => Throw e
  end.

(** [try { m } catch (error) { h error.message }] *)
Definition try_catch {A} (m : outcome A) (h : string -> outcome A) : outcome A :=
  match m with
  | Ok a => Ok a
  | Throw e => h e
  end.

(** [a && b] and [a || b] on conditions that may throw: the right
    operand is evaluated only when the left one does not decide. *)
Definition andM (a b : outcome bool) : outcome bool :=
  bind a (fun x => if x then b else Ok false).

Definition orM (a b : outcome bool) : outcome bool :=
  bind a (fun x => if x then Ok true else b).

Definition notM (a : outcome bool) : outcome bool :=
  bind a (fun x => Ok (negb x)).

Fixpoint filterM {A} (p : A -> outcome bool) (l : list A) : outcome (list A) :=
  match l with
  | [] => Ok []
  | x :: l' =>
      bind (p x) (fun keep =>
      bind (filterM p l') (fun r =>
      Ok (if keep then x :: r else r)))
  end.

Fixpoint mapM {A B} (f : A -> outcome B) (l : list A) : outcome (list B) :=
  match l with
  | [] => Ok []
  | x :: l' =>
      bind (f x) (fun y =>
      bind (mapM f l') (fun r =>
      Ok (y :: r)))
  end.

End Outcome.
Import Outcome.

Notation "x <- m ;; k" := (bind m (fun x => k))
  (at level 61, m at next level, right associativity).

(** ** Strings

    A JavaScript string is a sequence of code units; the model writes one
    [ascii] per code unit, so it covers the code units below 256. *)

Module Str.

(** [String.prototype.includes]: [pat] occurs in [s] as a substring. *)
Fixpoint includes (s pat : string) : bool :=
  String.prefix pat s ||
  match s with
  | EmptyString => false
  | String _ s' => includes s' pat
  end.

(** The specification of [includes], independent of the search. *)
Definition Substring (pat s : string) : Prop :=
  exists before after, s = before ++ pat ++ after.

End Str.

(** ** JavaScript values as the explorer's JSON delivers them

    Numbers are modelled as integers; [JUndef] is the value read from a
    property that is not there. *)

Inductive jsval : Type :=
| JUndef
| JNull
| JBool (b : bool)
| JNum (n : Z)
| JStr (s : string)
| JArr (items : list jsval)
| JObj (fields : list (string * jsval)).

Module Js.

(** ToBoolean *)
Definition truthy (v : jsval) : bool :=
  match v with
  | JUndef | JNull => false
  | JBool b => b
  | JNum n => negb (n =? 0)%Z
  | JStr s => negb (s =? EmptyString)
  | JArr _ | JObj _ => true
  end.

(** [v === 'lit'] for a string literal; also the SameValueZero test
    that [Array.prototype.includes] makes against a string. *)
Definition is_str (v : jsval) (lit : string) : bool :=
  match v with
  | JStr s => s =? lit
  | _ => false
  end.

Definition isArray (v : jsval) : bool :=
  match v with
  | JArr _ => true
  | _ => false
  end.

Fixpoint lookup (fields : list (string * jsval)) (name : string) : jsval :=
  match fields with
  | [] => JUndef
  | (k, v) :: rest => if k =? name then v else lookup rest name
  end.

(** The message of the TypeError raised by a property read on [null]
    or [undefined] (V8's wording). *)
Definition cannot_read (of_ name : string) : string :=
  "Cannot read properties of " ++ of_ ++ " (reading '" ++ name ++ "')".

(** [v.name] for an identifier [name] *)
Definition get (v : jsval) (name : string) : outcome jsval :=
  match v with
  | JUndef => Throw (cannot_read "undefined" name)
  | JNull => Throw (cannot_read "null" name)
  | JBool _ | JNum _ => Ok JUndef
  | JStr s => Ok (if name =? "length" then JNum (Z.of_nat (String.length s)) else JUndef)
  | JArr items => Ok (if name =? "length" then JNum (Z.of_nat (List.length items)) else JUndef)
  | JObj fields => Ok (lookup fields name)
  end.

Definition index_name (i : nat) : string :=
  NilZero.string_of_uint (Nat.to_uint i).

(** [v[i]] for a number literal [i] *)
Definition get_index (v : jsval) (i : nat) : outcome jsval :=
  match v with
  | JUndef => Throw (cannot_read "undefined" (index_name i))
  | JNull => Throw (cannot_read "null" (index_name i))
  | JBool _ | JNum _ => Ok JUndef
  | JStr s =>
      Ok match String.get i s with
         | Some c => JStr (String c EmptyString)
         | None => JUndef
         end
  | JArr items => Ok (nth i items JUndef)
  | JObj fields => Ok (lookup fields (index_name i))
  end.

End Js.

(** ** Regular expressions, for the one pattern the security scan uses

    [String.prototype.match] with a global pattern answers an array of
    all matches, or [null] when there is none; the scan only tests the
    answer for truthiness, that is, whether the pattern matches
    somewhere in the text. *)

Module Regex.

Inductive re : Type :=
| Void
| Eps
| Class (p : ascii -> bool)
| Cat (r1 r2 : re)
| Alt (r1 r2 : re)
| Star (r : re).

(** The strings a pattern matches in full. *)
Inductive Lang : re -> string -> Prop :=
| L_eps : Lang Eps EmptyString
| L_class p c : p c = true -> Lang (Class p) (String c EmptyString)
| L_cat r1 r2 s1 s2 : Lang r1 s1 -> Lang r2 s2 -> Lang (Cat r1 r2) (s1 ++ s2)
| L_alt_l r1 r2 s : Lang r1 s -> Lang (Alt r1 r2) s
| L_alt_r r1 r2 s : Lang r2 s -> Lang (Alt r1 r2) s
| L_star_nil r : Lang (Star r) EmptyString
| L_star_cons r s1 s2 : Lang r s1 -> Lang (Star r) s2 -> Lang (Star r) (s1 ++ s2).

Fixpoint nullable (r : re) : bool :=
  match r with
  | Void => false
  | Eps => true
  | Class _ => false
  | Cat r1 r2 => nullable r1 && nullable r2
  | Alt r1 r2 => nullable r1 || nullable r2
  | Star _ => true
  end.

Definition cat (r1 r2 : re) : re :=
  match r1 with
  | Void => Void
  | Eps => r2
  | _ => Cat r1 r2
  end.

Definition alt (r1 r2 : re) : re :=
  match r1, r2 with
  | Void, _ => r2
  | _, Void => r1
  | _, _ => Alt r1 r2
  end.

(** Brzozowski derivative: what is left to match after reading [c]. *)
Fixpoint deriv (c : ascii) (r : re) : re :=
  match r with
  | Void | Eps => Void
  | Class p => if p c then Eps else Void
  | Cat r1 r2 =>
      if nullable r1
      then alt (cat (deriv c r1) r2) (deriv c r2)
      else cat (deriv c r1) r2
  | Alt r1 r2 => alt (deriv c r1) (deriv c r2)
  | Star r1 => cat (deriv c r1) (Star r1)
  end.

Fixpoint matches (r : re) (s : string) : bool :=
  match s with
  | EmptyString => nullable r
  | String c s' => matches (deriv c r) s'
  end.

Definition any : re := Star (Class (fun _ => true)).

(** The pattern matches some substring of [s]. *)
Definition test (r : re) (s : string) : bool :=
  matches (Cat any (Cat r any)) s.

Definition chr (c : ascii) : re := Class (Ascii.eqb c).

Fixpoint lit (s : string) : re :=
  match s with
  | EmptyString => Eps
  | String c s' => Cat (chr c) (lit s')
  end.

(** [\s]: tab, line feed, vertical tab, form feed, carriage return,
    space and no-break space are the white space below 256. *)
Definition is_space (c : ascii) : bool :=
  let n := nat_of_ascii c in
  ((9 <=? n) && (n <=? 13) || (n =? 32) || (n =? 160))%nat.

(** [.] without the [s] flag: anything but a line terminator. *)
Definition is_dot (c : ascii) : bool :=
  let n := nat_of_ascii c in
  negb ((n =? 10) || (n =? 13))%nat.

Definition ws : re := Star (Class is_space).

End Regex.

(** ** The world outside the file *)

(** A request to the explorer.  The URL text is not modelled: a request
    is identified by its action and by the value the source interpolates
    into the query string (for the block lookup, the [blockNumber] field
    that the source passes through [parseInt(_, 16)]).  Rendering that
    value into the URL belongs to the request, so a failure to render it
    is a failure of the request.  The API key is the same in all of
    them. *)
Inductive request : Type :=
| GetContractCreation (address : string)
| GetTransactionByHash (txhash : jsval)
| GetBlockReward (blockNumber : jsval)
| GetSourceCode (address : string).

Record World : Type := {
  (** [web3.utils.isAddress] *)
  isAddress : string -> bool;
  (** [web3.utils.toChecksumAddress], on an address that [isAddress]
      accepts *)
  toChecksumAddress : string -> string;
  (** [web3.utils.fromWei(_, 'ether')] *)
  fromWei : Z -> string;
  (** [web3.eth.getCode]; an audit asks twice, the first argument is the
      ordinal of the call *)
  getCode : nat -> string -> outcome string;
  (** [web3.eth.getBalance] *)
  getBalance : string -> outcome Z;
  (** [web3.eth.getTransactionCount] *)
  getTransactionCount : string -> outcome Z;
  (** [(await axios.get(url)).data] *)
  axios_get : request -> outcome jsval;
  (** [JSON.parse] *)
  JSON_parse : jsval -> outcome jsval;
  (** ToNumber on strings, arrays and objects; [None] is NaN *)
  ToNumber : jsval -> option Z
}.

(** ** Data model *)

Module CreationInfo.
Record t : Type := mk {
  contractCreator : jsval;
  txHash : jsval;
  timestamp : jsval
}.
End CreationInfo.

Module VerificationInfo.
Record t : Type := mk {
  isVerified : jsval;
  contractName : jsval;
  sourceCode : jsval;
  abi : jsval
}.

(** [{ isVerified: false }] *)
Definition not_verified : t := mk (JBool false) JUndef JUndef JUndef.
End VerificationInfo.

Module Standards.
Record t : Type := mk {
  isERC20 : bool;
  isERC721 : bool;
  isERC1155 : bool
}.
End Standards.

Module Finding.
Record t : Type := mk {
  severity : string;
  issue : string;
  description : string
}.
End Finding.

Module SecurityAnalysis.
Record t : Type := mk {
  issuesFound : bool;
  issues : list Finding.t
}.
End SecurityAnalysis.

(** The report object.  A property that is [null] holds [JNull]; a
    property the object does not have reads as [JUndef], or as [None]
    for the five properties that are only ever added after the object
    is built. *)
Module Report.
Record t : Type := mk {
  address : string;
  isContract : bool;
  isVerified : jsval;
  contractName : jsval;
  contractCreator : jsval;
  creationTx : jsval;
  creationTimestamp : jsval;
  contractCode : jsval;
  sourceCode : jsval;
  abi : jsval;
  error : jsval;
  ethBalance : option string;
  transactionCount : option Z;
  standards : option Standards.t;
  probableType : option string;
  securityAnalysis : option SecurityAnalysis.t
}.

(** [result.contractName = v] *)
Definition set_contractName (r : t) (v : jsval) : t :=
  mk (address r) (isContract r) (isVerified r) v (contractCreator r)
     (creationTx r) (creationTimestamp r) (contractCode r) (sourceCode r)
     (abi r) (error r) (ethBalance r) (transactionCount r) (standards r)
     (probableType r) (securityAnalysis r).

(** [result.contractCreator = v] *)
Definition set_contractCreator (r : t) (v : jsval) : t :=
  mk (address r) (isContract r) (isVerified r) (contractName r) v
     (creationTx r) (creationTimestamp r) (contractCode r) (sourceCode r)
     (abi r) (error r) (ethBalance r) (transactionCount r) (standards r)
     (probableType r) (securityAnalysis r).

(** [result.creationTx = v] *)
Definition set_creationTx (r : t) (v : jsval) : t :=
  mk (address r) (isContract r) (isVerified r) (contractName r)
     (contractCreator r) v (creationTimestamp r) (contractCode r)
     (sourceCode r) (abi r) (error r) (ethBalance r) (transactionCount r)
     (standards r) (probableType r) (securityAnalysis r).

(** [result.creationTimestamp = v] *)
Definition set_creationTimestamp (r : t) (v : jsval) : t :=
  mk (address r) (isContract r) (isVerified r) (contractName r)
     (contractCreator r) (creationTx r) v (contractCode r) (sourceCode r)
     (abi r) (error r) (ethBalance r) (transactionCount r) (standards r)
     (probableType r) (securityAnalysis r).

(** [result.isVerified = v] *)
Definition set_isVerified (r : t) (v : jsval) : t :=
  mk (address r) (isContract r) v (contractName r) (contractCreator r)
     (creationTx r) (creationTimestamp r) (contractCode r) (sourceCode r)
     (abi r) (error r) (ethBalance r) (transactionCount r) (standards r)
     (probableType r) (securityAnalysis r).

(** [result.contractCode = v] *)
Definition set_contractCode (r : t) (v : jsval) : t :=
  mk (address r) (isContract r) (isVerified r) (contractName r)
     (contractCreator r) (creationTx r) (creationTimestamp r) v (sourceCode r)
     (abi r) (error r) (ethBalance r) (transactionCount r) (standards r)
     (probableType r) (securityAnalysis r).

(** [result.sourceCode = v] *)
Definition set_sourceCode (r : t) (v : jsval) : t :=
  mk (address r) (isContract r) (isVerified r) (contractName r)
     (contractCreator r) (creationTx r) (creationTimestamp r) (contractCode r)
     v (abi r) (error r) (ethBalance r) (transactionCount r) (standards r)
     (probableType r) (securityAnalysis r).

(** [result.abi = v] *)
Definition set_abi (r : t) (v : jsval) : t :=
  mk (address r) (isContract r) (isVerified r) (contractName r)
     (contractCreator r) (creationTx r) (creationTimestamp r) (contractCode r)
     (sourceCode r) v (error r) (ethBalance r) (transactionCount r)
     (standards r) (probableType r) (securityAnalysis r).

(** [result.error = v] *)
Definition set_error (r : t) (v : jsval) : t :=
  mk (address r) (isContract r) (isVerified r) (contractName r)
     (contractCreator r) (creationTx r) (creationTimestamp r) (contractCode r)
     (sourceCode r) (abi r) v (ethBalance r) (transactionCount r)
     (standards r) (probableType r) (securityAnalysis r).

(** [result.ethBalance = v] *)
Definition set_ethBalance (r : t) (v : string) : t :=
  mk (address r) (isContract r) (isVerified r) (contractName r)
     (contractCreator r) (creationTx r) (creationTimestamp r) (contractCode r)
     (sourceCode r) (abi r) (error r) (Some v) (transactionCount r)
     (standards r) (probableType r) (securityAnalysis r).

(** [result.transactionCount = v] *)
Definition set_transactionCount (r : t) (v : Z) : t :=
  mk (address r) (isContract r) (isVerified r) (contractName r)
     (contractCreator r) (creationTx r) (creationTimestamp r) (contractCode r)
     (sourceCode r) (abi r) (error r) (ethBalance r) (Some v) (standards r)
     (probableType r) (securityAnalysis r).

(** [result.standards = v] *)
Definition set_standards (r : t) (v : Standards.t) : t :=
  mk (address r) (isContract r) (isVerified r) (contractName r)
     (contractCreator r) (creationTx r) (creationTimestamp r) (contractCode r)
     (sourceCode r) (abi r) (error r) (ethBalance r) (transactionCount r)
     (Some v) (probableType r) (securityAnalysis r).

(** [result.probableType = v] *)
Definition set_probableType (r : t) (v : string) : t :=
  mk (address r) (isContract r) (isVerified r) (contractName r)
     (contractCreator r) (creationTx r) (creationTimestamp r) (contractCode r)
     (sourceCode r) (abi r) (error r) (ethBalance r) (transactionCount r)
     (standards r) (Some v) (securityAnalysis r).

(** [result.securityAnalysis = v] *)
Definition set_securityAnalysis (r : t) (v : SecurityAnalysis.t) : t :=
  mk (address r) (isContract r) (isVerified r) (contractName r)
     (contractCreator r) (creationTx r) (creationTimestamp r) (contractCode r)
     (sourceCode r) (abi r) (error r) (ethBalance r) (transactionCount r)
     (standards r) (probableType r) (Some v).

End Report.

(** ** The classifiers *)

(** *** [detectContractStandards] *)

Definition erc20Functions : list string :=
  ["totalSupply"; "balanceOf"; "transfer"; "transferFrom"; "approve"; "allowance"].

Definition erc721Functions : list string :=
  ["balanceOf"; "ownerOf"; "safeTransferFrom"; "transferFrom"; "approve";
   "getApproved"; "setApprovalForAll"; "isApprovedForAll"].

Definition erc1155Functions : list string :=
  ["balanceOf"; "balanceOfBatch"; "setApprovalForAll"; "isApprovedForAll";
   "safeTransferFrom"; "safeBatchTransferFrom"].

(** [functionNames.includes(func)] *)
Definition names_include (functionNames : list jsval) (func : string) : bool :=
  existsb (fun name => Js.is_str name func) functionNames.

(** [required.every(func => functionNames.includes(func))] *)
Definition every_included (required : list string) (functionNames : list jsval) : bool :=
  forallb (names_include functionNames) required.

(** [abi.filter(item => item.type === 'function').map(func => func.name)] *)
Definition functionNames_of (items : list jsval) : outcome (list jsval) :=
  functions <- filterM (fun item => ty <- Js.get item "type";; Ok (Js.is_str ty "function")) items;;
  mapM (fun func => Js.get func "name") functions.

Definition detectContractStandards (address : string) (abi : jsval) : outcome Standards.t :=
  if negb (Js.truthy abi) || negb (Js.isArray abi) then
    Ok (Standards.mk false false false)
  else
    match abi with
    | JArr items =>
        functionNames <- functionNames_of items;;
        let isERC20 := every_included erc20Functions functionNames in
        let isERC721 := every_included erc721Functions functionNames in
        let isERC1155 := every_included erc1155Functions functionNames in
        Ok (Standards.mk isERC20 isERC721 isERC1155)
    | _ => Ok (Standards.mk false false false)
    end.

(** *** [detectContractTypeFromBytecode] *)

Definition detectContractTypeFromBytecode (bytecode : string) : string :=
  if Str.includes bytecode "06fdde03" && Str.includes bytecode "95d89b41"
     && Str.includes bytecode "18160ddd" then
    "Likely Token (ERC20/ERC721)"
  else if Str.includes bytecode "01ffc9a7" then
    "Supports ERC165 Interface Detection"
  else if Str.includes bytecode "e8a3d485" then
    "Possible Uniswap-related contract"
  else if Str.includes bytecode "6080604052" then
    "Solidity 0.4.x+ Contract"
  else
    "Unknown Contract Type".

(** *** [analyzeContractSecurity] *)

(** [/require\s*\(\s*.*\.call\s*\(/g] *)
Definition require_call : Regex.re :=
  Regex.Cat (Regex.lit "require")
 (Regex.Cat Regex.ws
 (Regex.Cat (Regex.chr "(")
 (Regex.Cat Regex.ws
 (Regex.Cat (Regex.Star (Regex.Class Regex.is_dot))
 (Regex.Cat (Regex.lit ".call")
 (Regex.Cat Regex.ws
            (Regex.chr "("))))))).

Definition not_a_function (method : string) : string :=
  "sourceCode." ++ method ++ " is not a function".

(** [sourceCode.includes(pat)]: a string searches for a substring, an
    array for an element; nothing else in a JSON value has the
    method. *)
Definition includes (sourceCode : jsval) (pat : string) : outcome bool :=
  match sourceCode with
  | JStr s => Ok (Str.includes s pat)
  | JArr items => Ok (existsb (fun x => Js.is_str x pat) items)
  | JUndef => Throw (Js.cannot_read "undefined" "includes")
  | JNull => Throw (Js.cannot_read "null" "includes")
  | _ => Throw (not_a_function "includes")
  end.

(** Whether [sourceCode.match(pattern)] is truthy; only strings have
    the method. *)
Definition match_ (sourceCode : jsval) (pattern : Regex.re) : outcome bool :=
  match sourceCode with
  | JStr s => Ok (Regex.test pattern s)
  | JUndef => Throw (Js.cannot_read "undefined" "match")
  | JNull => Throw (Js.cannot_read "null" "match")
  | _ => Throw (not_a_function "match")
  end.

Definition reentrancy : Finding.t :=
  Finding.mk "High" "Potential reentrancy vulnerability"
    "Contract uses call.value without ReentrancyGuard or checks-effects-interactions pattern".

Definition tx_origin : Finding.t :=
  Finding.mk "Medium" "tx.origin used for authentication"
    "Using tx.origin for authentication can be exploited by phishing attacks".

Definition unchecked_call : Finding.t :=
  Finding.mk "Medium" "Unchecked external call"
    "External calls without checking return value can lead to silent failures".

Definition timestamp_dependence : Finding.t :=
  Finding.mk "Low" "Timestamp dependence"
    "Using block.timestamp for critical logic can be manipulated by miners".

Definition self_destruct : Finding.t :=
  Finding.mk "High" "Unprotected self-destruct"
    "Self-destruct functionality found - ensure it has proper access controls".

(** [if (cond) { issues.push(finding) }] *)
Definition push_if (cond : bool) (finding : Finding.t) (issues : list Finding.t)
  : list Finding.t :=
  if cond then issues ++ [finding] else issues.

Definition analyzeContractSecurity (sourceCode : jsval) : outcome SecurityAnalysis.t :=
  let issues := [] in
  c <- andM (includes sourceCode "call.value")
            (notM (includes sourceCode "ReentrancyGuard"));;
  let issues := push_if c reentrancy issues in
  c <- includes sourceCode "tx.origin";;
  let issues := push_if c tx_origin issues in
  c <- andM (orM (includes sourceCode ".call(") (includes sourceCode ".delegatecall("))
            (notM (match_ sourceCode require_call));;
  let issues := push_if c unchecked_call issues in
  c <- orM (includes sourceCode "block.timestamp") (includes sourceCode "now");;
  let issues := push_if c timestamp_dependence issues in
  c <- orM (includes sourceCode "selfdestruct") (includes sourceCode "suicide");;
  let issues := push_if c self_destruct issues in
  Ok (SecurityAnalysis.mk (0 <? List.length issues)%nat issues).

(** ** The helpers that talk to the node and to the explorer *)

Section Pipeline.

Variable w : World.

(** [v > n] for a number literal [n] *)
Definition gt (v : jsval) (n : Z) : bool :=
  let number :=
    match v with
    | JUndef => None
    | JNull => Some 0%Z
    | JBool b => Some (if b then 1 else 0)%Z
    | JNum m => Some m
    | JStr _ | JArr _ | JObj _ => ToNumber w v
    end in
  match number with
  | Some m => (n <? m)%Z
  | None => false
  end.

Definition checkIfContract (address : string) : outcome bool :=
  try_catch
    (code <- getCode w 0 address;;
     Ok (negb (code =? "0x") && negb (code =? "0x0")))
    (fun _ => Ok false).

(** [data.status !== '1' || !data.result || !data.result[0]] *)
Definition no_first_result (data : jsval) : outcome bool :=
  orM (status <- Js.get data "status";; Ok (negb (Js.is_str status "1")))
 (orM (result <- Js.get data "result";; Ok (negb (Js.truthy result)))
      (result <- Js.get data "result";;
       first <- Js.get_index result 0;;
       Ok (negb (Js.truthy first)))).

(** The inner [try] of [getContractCreationInfo]: the value
    [timestamp] holds when the block is left. *)
Definition creation_timestamp (txHash : jsval) : outcome jsval :=
  try_catch
    (txData <- axios_get w (GetTransactionByHash txHash);;
     has_block <- andM (result <- Js.get txData "result";; Ok (Js.truthy result))
                       (result <- Js.get txData "result";;
                        blockNumber <- Js.get result "blockNumber";;
                        Ok (Js.truthy blockNumber));;
     if has_block then
       result <- Js.get txData "result";;
       blockNumber <- Js.get result "blockNumber";;
       blockData <- axios_get w (GetBlockReward blockNumber);;
       has_time <- andM (status <- Js.get blockData "status";; Ok (Js.is_str status "1"))
                        (result <- Js.get blockData "result";; Ok (Js.truthy result));;
       if has_time then
         result <- Js.get blockData "result";;
         Js.get result "timeStamp"
       else Ok JNull
     else Ok JNull)
    (fun _ => Ok JNull).

Definition getContractCreationInfo (address : string) : outcome (option CreationInfo.t) :=
  try_catch
    (data <- axios_get w (GetContractCreation address);;
     missing <- no_first_result data;;
     if missing then Ok None
     else
       result <- Js.get data "result";;
       first <- Js.get_index result 0;;
       txHash <- Js.get first "txHash";;
       timestamp <- creation_timestamp txHash;;
       result <- Js.get data "result";;
       first <- Js.get_index result 0;;
       contractCreator <- Js.get first "contractCreator";;
       Ok (Some (CreationInfo.mk contractCreator txHash timestamp)))
    (fun _ => Ok None).

(** [SourceCode && SourceCode !== '{}' && SourceCode.length > 2], the
    value of the chain *)
Definition isVerified_of (contractData : jsval) : outcome jsval :=
  SourceCode <- Js.get contractData "SourceCode";;
  if negb (Js.truthy SourceCode) then Ok SourceCode
  else
    SourceCode <- Js.get contractData "SourceCode";;
    if Js.is_str SourceCode "{}" then Ok (JBool false)
    else
      SourceCode <- Js.get contractData "SourceCode";;
      length <- Js.get SourceCode "length";;
      Ok (JBool (gt length 2)).

Definition checkIfVerified (address : string) : outcome VerificationInfo.t :=
  try_catch
    (data <- axios_get w (GetSourceCode address);;
     missing <- no_first_result data;;
     if missing then Ok VerificationInfo.not_verified
     else
       result <- Js.get data "result";;
       contractData <- Js.get_index result 0;;
       isVerified <- isVerified_of contractData;;
       ContractName <- Js.get contractData "ContractName";;
       SourceCode <- Js.get contractData "SourceCode";;
       abi <- (if Js.truthy isVerified
               then ABI <- Js.get contractData "ABI";; JSON_parse w ABI
               else Ok JNull);;
       Ok (VerificationInfo.mk isVerified ContractName SourceCode abi))
    (fun _ => Ok VerificationInfo.not_verified).

(** ** The orchestrator *)

(** The object literal [analyzeAddress] starts from. *)
Definition initial_report (formattedAddress : string) (isContract : bool) : Report.t :=
  {| Report.address := formattedAddress;
     Report.isContract := isContract;
     Report.isVerified := JBool false;
     Report.contractName := JNull;
     Report.contractCreator := JNull;
     Report.creationTx := JNull;
     Report.creationTimestamp := JNull;
     Report.contractCode := JNull;
     Report.sourceCode := JNull;
     Report.abi := JNull;
     Report.error := JNull;
     Report.ethBalance := None;
     Report.transactionCount := None;
     Report.standards := None;
     Report.probableType := None;
     Report.securityAnalysis := None |}.

(** The object literal the outer [catch] returns. *)
Definition fallback_report (address message : string) : Report.t :=
  {| Report.address := address;
     Report.isContract := false;
     Report.isVerified := JBool false;
     Report.contractCode := JNull;
     Report.sourceCode := JNull;
     Report.error := JStr message;
     Report.contractName := JUndef;
     Report.contractCreator := JUndef;
     Report.creationTx := JUndef;
     Report.creationTimestamp := JUndef;
     Report.abi := JUndef;
     Report.ethBalance := None;
     Report.transactionCount := None;
     Report.standards := None;
     Report.probableType := None;
     Report.securityAnalysis := None |}.

(** The branch taken when [isContract] is false. *)
Definition not_a_contract (formattedAddress : string) (result : Report.t)
  : outcome Report.t :=
  let result := Report.set_error result (JStr "Address is not a contract") in
  balance <- getBalance w formattedAddress;;
  let result := Report.set_ethBalance result (fromWei w balance) in
  txCount <- getTransactionCount w formattedAddress;;
  let result := Report.set_transactionCount result txCount in
  Ok result.

(** [if (creationInfo) { ... }] *)
Definition record_creation (creationInfo : option CreationInfo.t) (result : Report.t)
  : Report.t :=
  match creationInfo with
  | Some info =>
      let result := Report.set_contractCreator result (CreationInfo.contractCreator info) in
      let result := Report.set_creationTx result (CreationInfo.txHash info) in
      Report.set_creationTimestamp result (CreationInfo.timestamp info)
  | None => result
  end.

(** Steps 2 and 3 and the security scan, from the verification lookup
    to [return result]. *)
Definition classify (formattedAddress : string) (result : Report.t) : outcome Report.t :=
  verificationInfo <- checkIfVerified formattedAddress;;
  let result := Report.set_isVerified result (VerificationInfo.isVerified verificationInfo) in
  bytecode <- getCode w 1 formattedAddress;;
  let result := Report.set_contractCode result (JStr bytecode) in
  result <-
    (if Js.truthy (VerificationInfo.isVerified verificationInfo) then
       let result := Report.set_sourceCode result (VerificationInfo.sourceCode verificationInfo) in
       let result := Report.set_contractName result (VerificationInfo.contractName verificationInfo) in
       let result := Report.set_abi result (VerificationInfo.abi verificationInfo) in
       standards <- detectContractStandards formattedAddress (VerificationInfo.abi verificationInfo);;
       Ok (Report.set_standards result standards)
     else
       let result := Report.set_error result (JStr "Contract is not verified on Etherscan") in
       Ok (Report.set_probableType result (detectContractTypeFromBytecode bytecode)));;
  if Js.truthy (VerificationInfo.isVerified verificationInfo)
     && Js.truthy (VerificationInfo.sourceCode verificationInfo) then
    analysis <- analyzeContractSecurity (VerificationInfo.sourceCode verificationInfo);;
    Ok (Report.set_securityAnalysis result analysis)
  else Ok result.

(** The body of the outer [try]. *)
Definition analyzeAddress_try (address : string) : outcome Report.t :=
  if negb (isAddress w address) then Throw "Invalid Ethereum address format"
  else
    let formattedAddress := toChecksumAddress w address in
    isContract <- checkIfContract formattedAddress;;
    let result := initial_report formattedAddress isContract in
    if negb isContract then not_a_contract formattedAddress result
    else
      creationInfo <- getContractCreationInfo formattedAddress;;
      let result := record_creation creationInfo result in
      classify formattedAddress result.

(** [analyzeAddress] always answers a report: whatever the body
    throws ends in the outer [catch]. *)
Definition analyzeAddress (address : string) : Report.t :=
  match analyzeAddress_try address with
  | Ok result => result
  | Throw message => fallback_report address message
  end.

(** Whether the audit of [address] ended in the outer [catch]. *)
Definition fell_back (address : string) : bool :=
  match analyzeAddress_try address with
  | Ok _ => false
  | Throw _ => true
  end.

End Pipeline.

(** * The vocabulary of the statements *)

(** ** The rule table of [detectContractTypeFromBytecode] *)

(** The rules in the order the source tests them: the substrings a rule
    looks for, and its label. *)
Definition bytecode_rules : list (list string * string) :=
  [ (["06fdde03"; "95d89b41"; "18160ddd"], "Likely Token (ERC20/ERC721)");
    (["01ffc9a7"], "Supports ERC165 Interface Detection");
    (["e8a3d485"], "Possible Uniswap-related contract");
    (["6080604052"], "Solidity 0.4.x+ Contract") ].

Definition unknown_label : string := "Unknown Contract Type".

Definition rule_matches (bytecode : string) (rule : list string * string) : bool :=
  forallb (Str.includes bytecode) (fst rule).

Definition rule_at (position : nat) : list string * string :=
  nth position bytecode_rules ([], unknown_label).

(** The positions of the rules that match, in declaration order. *)
Definition matching_positions (bytecode : string) : list nat :=
  filter (fun position => rule_matches bytecode (rule_at position))
         (seq 0 (List.length bytecode_rules)).

(** ** The entries of an ABI *)

(** The entries of an ABI: the elements of the array, nothing for a
    value that is not an array. *)
Definition entries (abi : jsval) : list jsval :=
  match abi with
  | JArr items => items
  | _ => []
  end.

(** [name] is the name of a function-type entry of the ABI. *)
Definition Declares (items : list jsval) (name : string) : Prop :=
  exists item,
    In item items /\
    Js.get item "type" = Ok (JStr "function") /\
    Js.get item "name" = Ok (JStr name).

(** An entry whose properties can be read: anything but [null] and
    [undefined]. *)
Definition readable (item : jsval) : Prop :=
  item <> JNull /\ item <> JUndef.

(** ** The rule table of [analyzeContractSecurity] *)

(** The five rules in the order the source tests them: the condition of
    a rule on the text, and the finding it reports. *)
Definition security_rules : list ((string -> bool) * Finding.t) :=
  [ (fun text => Str.includes text "call.value"
                 && negb (Str.includes text "ReentrancyGuard"),
     reentrancy);
    (fun text => Str.includes text "tx.origin",
     tx_origin);
    (fun text => (Str.includes text ".call(" || Str.includes text ".delegatecall(")
                 && negb (Regex.test require_call text),
     unchecked_call);
    (fun text => Str.includes text "block.timestamp" || Str.includes text "now",
     timestamp_dependence);
    (fun text => Str.includes text "selfdestruct" || Str.includes text "suicide",
     self_destruct) ].

(** The findings of the rules whose condition holds, in rule order. *)
Definition triggered (text : string) : list Finding.t :=
  map snd (filter (fun rule => fst rule text) security_rules).

Definition is_reentrancy (finding : Finding.t) : bool :=
  Finding.issue finding =? "Potential reentrancy vulnerability".

(** ** Reports and lookups *)

Section Statements.

Variable w : World.

(** The contract check reads the empty-code sentinel for [address]. *)
Definition empty_code (address : string) : Prop :=
  getCode w 0 (toChecksumAddress w address) = Ok "0x" \/
  getCode w 0 (toChecksumAddress w address) = Ok "0x0".

(** The report of the not-a-contract branch when both reads succeed. *)
Definition account_report (formattedAddress : string) (balance txCount : Z) : Report.t :=
  {| Report.address := formattedAddress;
     Report.isContract := false;
     Report.isVerified := JBool false;
     Report.contractName := JNull;
     Report.contractCreator := JNull;
     Report.creationTx := JNull;
     Report.creationTimestamp := JNull;
     Report.contractCode := JNull;
     Report.sourceCode := JNull;
     Report.abi := JNull;
     Report.error := JStr "Address is not a contract";
     Report.ethBalance := Some (fromWei w balance);
     Report.transactionCount := Some txCount;
     Report.standards := None;
     Report.probableType := None;
     Report.securityAnalysis := None |}.

(** The transaction lookup for [txHash] fails, or else every block
    lookup does. *)
Definition later_lookups_fail (txHash : jsval) : Prop :=
  (exists message, axios_get w (GetTransactionByHash txHash) = Throw message) \/
  (forall blockNumber, exists message,
      axios_get w (GetBlockReward blockNumber) = Throw message).

(** The creation lookup answered [data] whose first result is
    [first]. *)
Definition creation_found (address : string) (first : jsval) : Prop :=
  exists data result,
    axios_get w (GetContractCreation address) = Ok data /\
    Js.get data "status" = Ok (JStr "1") /\
    Js.get data "result" = Ok result /\
    Js.truthy result = true /\
    Js.get_index result 0 = Ok first /\
    Js.truthy first = true.

(** The report of a verified contract on which every later step
    succeeded. *)
Definition verified_report
           (formattedAddress : string) (creation : CreationInfo.t)
           (info : VerificationInfo.t) (bytecode : string)
           (standards : Standards.t) (analysis : SecurityAnalysis.t) : Report.t :=
  {| Report.address := formattedAddress;
     Report.isContract := true;
     Report.isVerified := VerificationInfo.isVerified info;
     Report.contractName := VerificationInfo.contractName info;
     Report.contractCreator := CreationInfo.contractCreator creation;
     Report.creationTx := CreationInfo.txHash creation;
     Report.creationTimestamp := CreationInfo.timestamp creation;
     Report.contractCode := JStr bytecode;
     Report.sourceCode := VerificationInfo.sourceCode info;
     Report.abi := VerificationInfo.abi info;
     Report.error := JNull;
     Report.ethBalance := None;
     Report.transactionCount := None;
     Report.standards := Some standards;
     Report.probableType := None;
     Report.securityAnalysis := Some analysis |}.

End Statements.

(** ** Sample values and sample worlds *)

(** A function-type ABI entry with the given name. *)
Definition function_entry (name : string) : jsval :=
  JObj [("type", JStr "function"); ("name", JStr name)].

Definition erc20_abi : list jsval := map function_entry erc20Functions.

Definition erc20_and_erc721_abi : jsval :=
  JArr (map function_entry (erc20Functions ++ erc721Functions)%list).

Definition wallet_source : string :=
  "function withdraw() public { msg.sender.call.value(balance)(); }".

Module Sample.

(** An address in lower case and its checksum-cased form. *)
Definition raw_address : string := "0xde0b295669a9fd93d5f28d9ec85e40f4cb697bae".
Definition checksummed : string := "0xde0B295669a9FD93d5F28D9Ec85E40f4cb697BAe".

Definition token_bytecode : string := "0x608060405206fdde0395d89b4118160ddd".

Definition token_source : string :=
  "contract Token { function transfer(address to, uint256 value) public {} }".

(** The serialized ABI the explorer sends, and the array it parses to. *)
Definition quote : string := String (ascii_of_nat 34) EmptyString.

Definition entry_text (name : string) : string :=
  "{" ++ quote ++ "type" ++ quote ++ ":" ++ quote ++ "function" ++ quote ++ ","
      ++ quote ++ "name" ++ quote ++ ":" ++ quote ++ name ++ quote ++ "}".

Definition token_abi_text : string :=
  "[" ++ String.concat "," (map entry_text erc20Functions) ++ "]".

Definition token_abi : jsval := JArr erc20_abi.

Definition creation_answer : jsval :=
  JObj [("status", JStr "1");
        ("result", JArr [JObj [("contractCreator", JStr "0x5abfec25f74cd88437631a7731906932776356f9");
                               ("txHash", JStr "0xe9ebfecc2fa10100db51a4408d18193b3ac504584b51a4e55bdef1318f0a30f9")]])].

Definition source_answer : jsval :=
  JObj [("status", JStr "1");
        ("result", JArr [JObj [("SourceCode", JStr token_source);
                               ("ContractName", JStr "Token");
                               ("ABI", JStr token_abi_text)]])].

(** An explorer that knows the contract but fails every transaction and
    block lookup. *)
Definition explorer (req : request) : outcome jsval :=
  match req with
  | GetContractCreation _ => Ok creation_answer
  | GetSourceCode _ => Ok source_answer
  | GetTransactionByHash _ => Throw "Request failed with status code 502"
  | GetBlockReward _ => Throw "Request failed with status code 502"
  end.

(** A world around the sample address: the answers of the node to the
    two [getCode] calls, to [getBalance] and to [getTransactionCount]
    are the parameters.  The library functions are tables that agree
    with the library on the values the samples use (the two spellings
    of the address, balances of 0 and 1 wei, the ABI text above). *)
Definition world (code_check code_fetch : outcome string) (balance count : outcome Z)
  : World :=
  {| isAddress := fun address => (address =? raw_address) || (address =? checksummed);
     toChecksumAddress := fun address =>
       if address =? raw_address then checksummed else address;
     fromWei := fun wei => if (wei =? 0)%Z then "0" else "0.000000000000000001";
     getCode := fun call _ => match call with O => code_check | _ => code_fetch end;
     getBalance := fun _ => balance;
     getTransactionCount := fun _ => count;
     axios_get := explorer;
     JSON_parse := fun text =>
       if Js.is_str text token_abi_text then Ok token_abi
       else Throw "Unexpected token in JSON";
     ToNumber := fun _ => None |}.
(* No sample reaches ToNumber: every [SourceCode] above is a string. *)

(** An externally owned account whose balance cannot be read. *)
Definition unreadable_account : World :=
  world (Ok "0x") (Ok "0x") (Throw "timeout of 5000ms exceeded") (Ok 0%Z).

(** An externally owned account with nothing on it. *)
Definition empty_account : World :=
  world (Ok "0x") (Ok "0x") (Ok 0%Z) (Ok 0%Z).

(** A node whose first [getCode] fails. *)
Definition unreachable_code : World :=
  world (Throw "connect ECONNREFUSED") (Ok "0x") (Ok 0%Z) (Ok 0%Z).

(** A verified token contract. *)
Definition verified_token : World :=
  world (Ok token_bytecode) (Ok token_bytecode) (Ok 0%Z) (Ok 1%Z).

End Sample.

Definition sample_creation : CreationInfo.t :=
  CreationInfo.mk
    (JStr "0x5abfec25f74cd88437631a7731906932776356f9")
    (JStr "0xe9ebfecc2fa10100db51a4408d18193b3ac504584b51a4e55bdef1318f0a30f9")
    JNull.

(** * The rest of the file: signatures, the formatter, the tool handler *)

(** ** Conversion to text

    A template literal converts each substituted value with ToString.
    How the runtime prints a number, and how it prints a date in the
    locale of the host, are taken from the runtime. *)

Record Runtime : Type := {
  (** [Number.prototype.toString] *)
  Number_toString : Z -> string;
  (** [new Date(v * 1000).toLocaleString()] *)
  toLocaleString : jsval -> outcome string
}.

Module Text.

Definition newline : string := String (ascii_of_nat 10) EmptyString.

(** The decimal digits of an array length. *)
Definition of_nat (n : nat) : string := NilEmpty.string_of_uint (Nat.to_uint n).

(** The decimal digits of a bigint. *)
Definition of_Z (z : Z) : string := NilEmpty.string_of_int (Z.to_int z).

(** [lines.join(separator)] *)
Definition join (separator : string) (lines : list string) : string :=
  String.concat separator lines.

Fixpoint has_key (fields : list (string * jsval)) (name : string) : bool :=
  match fields with
  | [] => false
  | (k, _) :: rest => (k =? name) || has_key rest name
  end.

(** ToString.  An array prints its elements separated by commas, with
    nothing for [null] and [undefined]; an object prints as
    [[object Object]], unless a property of its own hides the inherited
    [toString], and then the conversion fails because nothing a JSON
    value holds can be called. *)
Fixpoint to_string (rt : Runtime) (v : jsval) : outcome string :=
  match v with
  | JUndef => Ok "undefined"
  | JNull => Ok "null"
  | JBool b => Ok (if b then "true" else "false")
  | JNum n => Ok (Number_toString rt n)
  | JStr s => Ok s
  | JArr items =>
      (fix elements (l : list jsval) : outcome string :=
         match l with
         | [] => Ok EmptyString
         | x :: rest =>
             first <- match x with
                      | JUndef | JNull => Ok EmptyString
                      | _ => to_string rt x
                      end;;
             match rest with
             | [] => Ok first
             | _ => others <- elements rest;; Ok (first ++ "," ++ others)
             end
         end) items
  | JObj fields =>
      if has_key fields "toString"
      then Throw "Cannot convert object to primitive value"
      else Ok "[object Object]"
  end.

(** [v || d] *)
Definition or_else (v d : jsval) : jsval :=
  if Js.truthy v then v else d.

End Text.

(** The characters in front of the labels, as the source file has
    them.  They lie above 255 and are written here as their UTF-8
    bytes; the formatter only concatenates them. *)
Module Icon.
Definition chart : string := "üìä".
Definition pin : string := "üìç".
Definition scroll : string := "üìú".
Definition yes : string := "‚úÖ".
Definition no : string := "‚ùå".
Definition money : string := "üí∞".
Definition cycle : string := "üîÑ".
Definition lock : string := "üîê".
Definition person : string := "üë§".
Definition receipt : string := "üßæ".
Definition clock : string := "‚è∞".
Definition clipboard : string := "üìã".
Definition tabs : string := "üìë".
Definition memo : string := "üìù".
Definition bell : string := "üîî".
Definition warning : string := "‚ö†Ô∏è".
Definition magnifier : string := "üîç".
End Icon.

(** ** [extractFunctionSignatures] and [extractEventSignatures] *)

Module FunctionSignature.
Record t : Type := mk {
  name : jsval;
  signature : string;
  returns : string;
  stateMutability : string;
  visibility : jsval;
  fullSignature : string
}.
End FunctionSignature.

Module EventSignature.
Record t : Type := mk {
  name : jsval;
  signature : string;
  fullSignature : string
}.
End EventSignature.

Section Signatures.

Variable rt : Runtime.

(** [params?.map(render).join(', ') || ''], where [callee] is the
    source text of the call for the message of the TypeError *)
Definition parameter_list (callee : string) (params : jsval)
           (render : jsval -> outcome string) : outcome string :=
  match params with
  | JUndef | JNull => Ok EmptyString
  | JArr items =>
      texts <- mapM render items;;
      Ok (Text.join ", " texts)
  | _ => Throw (callee ++ " is not a function")
  end.

(** [`${input.type} ${input.name || ''}`] *)
Definition function_parameter (input : jsval) : outcome string :=
  type <- Js.get input "type";;
  type <- Text.to_string rt type;;
  name <- Js.get input "name";;
  name <- Text.to_string rt (Text.or_else name (JStr EmptyString));;
  Ok (type ++ " " ++ name).

(** [`${input.type} ${input.indexed ? 'indexed' : ''} ${input.name || ''}`] *)
Definition event_parameter (input : jsval) : outcome string :=
  type <- Js.get input "type";;
  type <- Text.to_string rt type;;
  indexed <- Js.get input "indexed";;
  name <- Js.get input "name";;
  name <- Text.to_string rt (Text.or_else name (JStr EmptyString));;
  Ok (type ++ " " ++ (if Js.truthy indexed then "indexed" else EmptyString) ++ " " ++ name).

(** The callback that [extractFunctionSignatures] maps over the
    function entries. *)
Definition function_signature (func : jsval) : outcome FunctionSignature.t :=
  inputs <- Js.get func "inputs";;
  inputs <- parameter_list "func.inputs?.map" inputs function_parameter;;
  outputs <- Js.get func "outputs";;
  outputs <- parameter_list "func.outputs?.map" outputs function_parameter;;
  mutability <- Js.get func "stateMutability";;
  stateMutability <- (if Js.truthy mutability then Text.to_string rt mutability
                      else Ok EmptyString);;
  name <- Js.get func "name";;
  name_text <- Text.to_string rt name;;
  let signature := name_text ++ "(" ++ inputs ++ ")" in
  let returns := if negb (outputs =? EmptyString)
                 then "returns (" ++ outputs ++ ")" else EmptyString in
  visibility <- Js.get func "visibility";;
  let visibility := Text.or_else visibility (JStr "public") in
  name_text <- Text.to_string rt name;;
  visibility_text <- Text.to_string rt visibility;;
  Ok (FunctionSignature.mk name signature returns stateMutability visibility
        ("function " ++ name_text ++ "(" ++ inputs ++ ") " ++ visibility_text ++ " "
           ++ stateMutability ++ " " ++ returns)).

(** [abi.filter(item => item.type === kind)] *)
Definition entries_of_type (kind : string) (abi : jsval) : outcome (list jsval) :=
  match abi with
  | JArr items =>
      filterM (fun item => ty <- Js.get item "type";; Ok (Js.is_str ty kind)) items
  | JUndef => Throw (Js.cannot_read "undefined" "filter")
  | JNull => Throw (Js.cannot_read "null" "filter")
  | _ => Throw "abi.filter is not a function"
  end.

Definition extractFunctionSignatures (abi : jsval) : outcome (list FunctionSignature.t) :=
  if negb (Js.truthy abi) then Ok []
  else
    functions <- entries_of_type "function" abi;;
    mapM function_signature functions.

(** The callback that [extractEventSignatures] maps over the event
    entries. *)
Definition event_signature (event : jsval) : outcome EventSignature.t :=
  inputs <- Js.get event "inputs";;
  params <- parameter_list "event.inputs?.map" inputs event_parameter;;
  name <- Js.get event "name";;
  name_text <- Text.to_string rt name;;
  let signature := name_text ++ "(" ++ params ++ ")" in
  name_text <- Text.to_string rt name;;
  Ok (EventSignature.mk name signature ("event " ++ name_text ++ "(" ++ params ++ ")")).

Definition extractEventSignatures (abi : jsval) : outcome (list EventSignature.t) :=
  if negb (Js.truthy abi) then Ok []
  else
    events <- entries_of_type "event" abi;;
    mapM event_signature events.

(** ** [formatAnalysisResults] *)

(** [output.push(...lines)] *)
Definition push (output lines : list string) : list string :=
  (output ++ lines)%list.

Definition yes_no (cond : bool) : string :=
  if cond then Icon.yes ++ " Yes" else Icon.no ++ " No".

(** [`${v}`] for a property that the report may not have *)
Definition optional_text {A} (print : A -> string) (v : option A) : string :=
  match v with
  | Some a => print a
  | None => "undefined"
  end.

(** The lines of [if (result.contractCreator) { ... }]. *)
Definition creator_lines (result : Report.t) : outcome (list string) :=
  if Js.truthy (Report.contractCreator result) then
    creator <- Text.to_string rt (Report.contractCreator result);;
    tx <- Text.to_string rt (Report.creationTx result);;
    time <- toLocaleString rt (Report.creationTimestamp result);;
    Ok [ Icon.person ++ " Contract Creator: " ++ creator;
         Icon.receipt ++ " Creation Tx: " ++ tx;
         Icon.clock ++ " Creation Time: " ++ time ]
  else Ok [].

(** The lines of [if (result.standards) { ... }]. *)
Definition standards_lines (result : Report.t) : list string :=
  match Report.standards result with
  | Some standards =>
      [ Text.newline ++ Icon.tabs ++ " CONTRACT STANDARDS:";
        "   ERC20: " ++ yes_no (Standards.isERC20 standards);
        "   ERC721 (NFT): " ++ yes_no (Standards.isERC721 standards);
        "   ERC1155 (Multi Token): " ++ yes_no (Standards.isERC1155 standards) ]
  | None => []
  end.

(** [if (count > 5) { output.push(`   ... and ${count - 5} more ${what}`) }] *)
Definition more_line (count : nat) (what : string) : list string :=
  if (5 <? count)%nat
  then ["   ... and " ++ Text.of_nat (count - 5) ++ " more " ++ what]
  else [].

(** The lines of [if (result.abi) { ... }]. *)
Definition abi_lines (result : Report.t) : outcome (list string) :=
  if Js.truthy (Report.abi result) then
    functions <- extractFunctionSignatures (Report.abi result);;
    events <- extractEventSignatures (Report.abi result);;
    shown_functions <-
      mapM (fun func =>
              name <- Text.to_string rt (FunctionSignature.name func);;
              Ok ("   - " ++ name ++ "(" ++ FunctionSignature.stateMutability func ++ ")"))
           (firstn 5 functions);;
    shown_events <-
      mapM (fun event =>
              name <- Text.to_string rt (EventSignature.name event);;
              Ok ("   - " ++ name))
           (firstn 5 events);;
    let output :=
      [Text.newline ++ Icon.memo ++ " FUNCTIONS ("
         ++ Text.of_nat (List.length functions) ++ "):"] in
    let output := push output shown_functions in
    let output := push output (more_line (List.length functions) "functions") in
    let output :=
      push output [Text.newline ++ Icon.bell ++ " EVENTS ("
                     ++ Text.of_nat (List.length events) ++ "):"] in
    let output := push output shown_events in
    Ok (push output (more_line (List.length events) "events"))
  else Ok [].

(** The lines of [if (result.securityAnalysis && ...issuesFound) { ... }]. *)
Definition security_lines (result : Report.t) : list string :=
  match Report.securityAnalysis result with
  | Some analysis =>
      if SecurityAnalysis.issuesFound analysis then
        (Text.newline ++ Icon.warning ++ " SECURITY ISSUES:")
          :: flat_map (fun finding =>
                         [ "   [" ++ Finding.severity finding ++ "] " ++ Finding.issue finding;
                           "     " ++ Finding.description finding ])
                      (SecurityAnalysis.issues analysis)
      else []
  | None => []
  end.

(** The lines of the [else] branch of [if (result.isVerified)]. *)
Definition unverified_lines (result : Report.t) : list string :=
  push (match Report.probableType result with
        | Some type =>
            if negb (type =? EmptyString)
            then [Icon.magnifier ++ " Probable Contract Type: " ++ type]
            else []
        | None => []
        end)
       [Text.newline ++ Icon.no
          ++ " Contract is not verified on Etherscan. Limited analysis available."].

(** The lines of [if (result.error) { ... }]. *)
Definition error_lines (result : Report.t) : outcome (list string) :=
  if Js.truthy (Report.error result) then
    note <- Text.to_string rt (Report.error result);;
    Ok [Text.newline ++ Icon.warning ++ " Info: " ++ note]
  else Ok [].

(** The first three lines. *)
Definition heading_lines (result : Report.t) : list string :=
  [ "=== " ++ Icon.chart ++ " CONTRACT ANALYSIS RESULTS ===";
    Icon.pin ++ " Address: " ++ Report.address result;
    Icon.scroll ++ " Is Contract: " ++ yes_no (Report.isContract result) ].

(** The two lines pushed when [result.isContract] is false. *)
Definition account_lines (result : Report.t) : list string :=
  [ Icon.money ++ " ETH Balance: "
      ++ optional_text (fun text => text) (Report.ethBalance result) ++ " ETH";
    Icon.cycle ++ " Transaction Count: "
      ++ optional_text Text.of_Z (Report.transactionCount result) ].

(** The array [output] at the [return] that [formatAnalysisResults]
    reaches. *)
Definition output_lines (result : Report.t) : outcome (list string) :=
  let output := heading_lines result in
  if negb (Report.isContract result) then
    Ok (push output (account_lines result))
  else
    let output :=
      push output [Icon.lock ++ " Is Verified: "
                     ++ yes_no (Js.truthy (Report.isVerified result))] in
    creator <- creator_lines result;;
    let output := push output creator in
    output <-
      (if Js.truthy (Report.isVerified result) then
         name <- Text.to_string rt
                   (Text.or_else (Report.contractName result) (JStr "Unknown"));;
         let output := push output [Icon.clipboard ++ " Contract Name: " ++ name] in
         let output := push output (standards_lines result) in
         abi <- abi_lines result;;
         let output := push output abi in
         Ok (push output (security_lines result))
       else Ok (push output (unverified_lines result)));;
    note <- error_lines result;;
    Ok (push output note).

Definition formatAnalysisResults (result : Report.t) : outcome string :=
  output <- output_lines result;;
  Ok (Text.join Text.newline output).

(** ** The handler of the [auditContract] tool

    [web3] is the outcome of [new Web3(...)]; the answer of the handler
    is modelled by the text of its one content item.  The handler does
    not use [chain]. *)
Definition auditContract (web3 : outcome World) (address chain : string) : string :=
  match (w <- web3;; formatAnalysisResults (analyzeAddress w address)) with
  | Ok text => text
  | Throw message => "Error analyzing contract: " ++ message
  end.

End Signatures.

(** A runtime for the samples: integers in decimal, and a host in the
    en-US locale on UTC, for the two timestamps the samples have
    ([null], which is the epoch, and [undefined], which is no date). *)
Definition sample_runtime : Runtime :=
  {| Number_toString := Text.of_Z;
     toLocaleString := fun v =>
       match v with
       | JNull => Ok "1/1/1970, 12:00:00 AM"
       | _ => Ok "Invalid Date"
       end |}.

(** ** Vocabulary of the further properties *)

(** The source lookup answered [data] whose first result is
    [contractData]. *)
Definition source_found (w : World) (address : string) (contractData : jsval) : Prop :=
  exists data result,
    axios_get w (GetSourceCode address) = Ok data /\
    Js.get data "status" = Ok (JStr "1") /\
    Js.get data "result" = Ok result /\
    Js.truthy result = true /\
    Js.get_index result 0 = Ok contractData /\
    Js.truthy contractData = true.

(** The characters [.] matches. *)
Fixpoint one_line (text : string) : bool :=
  match text with
  | EmptyString => true
  | String c rest => Regex.is_dot c && one_line rest
  end.

Definition is_function_entry (item : jsval) : Prop :=
  Js.get item "type" = Ok (JStr "function").

(** An event entry. *)
Definition transfer_event : jsval :=
  JObj [("type", JStr "event"); ("name", JStr "Transfer")].

(** Further sample worlds, around the same address. *)
Module MoreSamples.

(** [base] with another explorer and another [JSON.parse]. *)
Definition with_explorer (base : World) (explorer : request -> outcome jsval)
           (parse : jsval -> outcome jsval) : World :=
  {| isAddress := isAddress base;
     toChecksumAddress := toChecksumAddress base;
     fromWei := fromWei base;
     getCode := getCode base;
     getBalance := getBalance base;
     getTransactionCount := getTransactionCount base;
     axios_get := explorer;
     JSON_parse := parse;
     ToNumber := ToNumber base |}.

(** The answer of the explorer for a contract it has no source of. *)
Definition no_source_answer : jsval :=
  JObj [("status", JStr "1");
        ("result", JArr [JObj [("SourceCode", JStr EmptyString);
                               ("ABI", JStr "Contract source code not verified");
                               ("ContractName", JStr EmptyString)]])].

(** The answer of the explorer to a creation lookup it has no result
    for. *)
Definition no_data_answer : jsval :=
  JObj [("status", JStr "0"); ("message", JStr "No data found"); ("result", JNull)].

Definition silent_explorer (req : request) : outcome jsval :=
  match req with
  | GetSourceCode _ => Ok no_source_answer
  | GetContractCreation _ => Ok no_data_answer
  | _ => Throw "Request failed with status code 502"
  end.

Definition refuse_parse (text : jsval) : outcome jsval :=
  Throw "Unexpected token C in JSON at position 0".

(** A contract that is not verified and whose creation is unknown. *)
Definition unverified_contract : World :=
  with_explorer Sample.verified_token silent_explorer refuse_parse.

(** A verified source whose ABI text does not parse. *)
Definition broken_abi_answer : jsval :=
  JObj [("status", JStr "1");
        ("result", JArr [JObj [("SourceCode", JStr Sample.token_source);
                               ("ContractName", JStr "Token");
                               ("ABI", JStr "Contract source code not verified")]])].

Definition broken_abi : World :=
  with_explorer Sample.verified_token
    (fun req => match req with
                | GetSourceCode _ => Ok broken_abi_answer
                | _ => silent_explorer req
                end)
    refuse_parse.

(** A verified source whose ABI text is the JSON object [{}]. *)
Definition object_abi_answer : jsval :=
  JObj [("status", JStr "1");
        ("result", JArr [JObj [("SourceCode", JStr Sample.token_source);
                               ("ContractName", JStr "Token");
                               ("ABI", JStr "{}")]])].

Definition object_abi : World :=
  with_explorer Sample.verified_token
    (fun req => match req with
                | GetSourceCode _ => Ok object_abi_answer
                | _ => silent_explorer req
                end)
    (fun text => if Js.is_str text "{}" then Ok (JObj [])
                 else Throw "Unexpected token in JSON").

(** A contract whose code cannot be read a second time. *)
Definition code_read_once : World :=
  Sample.world (Ok Sample.token_bytecode) (Throw "timeout of 5000ms exceeded")
               (Ok 0%Z) (Ok 1%Z).





End MoreSamples.

(** ** ABI entries as the explorer delivers them *)

(** A text, or a property that is not there. *)
Definition text_or_absent (v : jsval) : Prop :=
  v = JUndef \/ exists text, v = JStr text.

(** A parameter: an object with a [type] text and maybe a [name]
    text. *)
Definition well_formed_parameter (input : jsval) : Prop :=
  exists fields,
    input = JObj fields /\
    (exists type, Js.lookup fields "type" = JStr type) /\
    text_or_absent (Js.lookup fields "name").

(** A parameter list: an array of parameters, or none. *)
Definition well_formed_parameters (params : jsval) : Prop :=
  params = JUndef \/
  exists items, params = JArr items /\ Forall well_formed_parameter items.

(** A function entry: an object with a [name] text, parameter lists
    for [inputs] and [outputs], and texts, if anything, for
    [stateMutability] and [visibility]. *)
Definition well_formed_function (func : jsval) : Prop :=
  exists fields,
    func = JObj fields /\
    (exists name, Js.lookup fields "name" = JStr name) /\
    well_formed_parameters (Js.lookup fields "inputs") /\
    well_formed_parameters (Js.lookup fields "outputs") /\
    text_or_absent (Js.lookup fields "stateMutability") /\
    text_or_absent (Js.lookup fields "visibility").

(** A function entry with one input and one output. *)
Definition balanceOf_entry : jsval :=
  JObj [("type", JStr "function");
        ("name", JStr "balanceOf");
        ("inputs", JArr [JObj [("type", JStr "address"); ("name", JStr "owner")]]);
        ("outputs", JArr [JObj [("type", JStr "uint256")]]);
        ("stateMutability", JStr "view")].

(** * Properties *)

(** ** Substring search *)

Lemma prefix_app (pat s : string) :
  String.prefix pat s = true <-> exists after, s = pat ++ after.
Proof.
  revert s; induction pat as [|c pat IH]; intros s.
  - split; [intros _; now exists s | intros _; now destruct s].
  - destruct s as [|d s]; simpl.
    + split; [discriminate | intros [after H]; discriminate].
    + destruct (Ascii.ascii_dec c d) as [->|Hcd].
      * rewrite IH. split; intros [after H]; exists after.
        -- now rewrite H.
        -- now inversion H.
      * split; [discriminate|].
        intros [after H]. inversion H. congruence.
Qed.

Lemma includes_Substring (s pat : string) :
  Str.includes s pat = true <-> Str.Substring pat s.
Proof.
  unfold Str.Substring.
  induction s as [|c s IH]; cbn [Str.includes]; rewrite orb_true_iff, prefix_app.
  - split.
    + intros [[after H]|H]; [|discriminate]. now exists EmptyString, after.
    + intros [before [after H]]. left.
      destruct before; [now exists after | discriminate].
  - rewrite IH. split.
    + intros [[after H]|[before [after H]]].
      * now exists EmptyString, after.
      * exists (String c before), after. simpl. now rewrite H.
    + intros [before [after H]]. destruct before as [|d before]; simpl in H.
      * left. now exists after.
      * right. inversion H. now exists before, after.
Qed.

Lemma includes_false (s pat : string) :
  Str.includes s pat = false <-> ~ Str.Substring pat s.
Proof.
  rewrite <- includes_Substring. destruct (Str.includes s pat); split; congruence.
Qed.

(** ** The derivative matcher decides the language of a pattern *)

Module RegexFacts.
Import Regex.

Lemma string_app_nil (s1 s2 : string) :
  (s1 ++ s2)%string = EmptyString -> s1 = EmptyString /\ s2 = EmptyString.
Proof. destruct s1; simpl; [auto | discriminate]. Qed.

Lemma nullable_Lang (r : re) : nullable r = true <-> Lang r EmptyString.
Proof.
  induction r; simpl.
  - split; [discriminate | inversion 1].
  - split; [constructor | reflexivity].
  - split; [discriminate | inversion 1].
  - rewrite andb_true_iff, IHr1, IHr2. split.
    + intros [H1 H2]. change EmptyString with (EmptyString ++ EmptyString)%string.
      now constructor.
    + inversion 1 as [| |? ? s1 s2 H1 H2 E1 E2| | | |]; subst.
      apply string_app_nil in E2 as [-> ->]. auto.
  - rewrite orb_true_iff, IHr1, IHr2. split.
    + intros [H|H]; [now apply L_alt_l | now apply L_alt_r].
    + inversion 1; subst; auto.
  - split; [constructor | reflexivity].
Qed.

Lemma cat_Lang (r1 r2 : re) (s : string) : Lang (cat r1 r2) s <-> Lang (Cat r1 r2) s.
Proof.
  destruct r1; simpl; try tauto.
  - split; [inversion 1 |].
    inversion 1 as [| |? ? s1 s2 H1 H2| | | |]; subst. inversion H1.
  - split.
    + intros H. change s with (EmptyString ++ s)%string. constructor; [constructor | exact H].
    + inversion 1 as [| |? ? s1 s2 H1 H2| | | |]; subst. inversion H1; subst. exact H2.
Qed.

Lemma alt_Lang (r1 r2 : re) (s : string) : Lang (alt r1 r2) s <-> Lang (Alt r1 r2) s.
Proof.
  assert (V : forall t, ~ Lang Void t) by (intros t H; inversion H).
  destruct r1, r2; simpl; try tauto;
    (split; [intros H; first [now apply L_alt_l | now apply L_alt_r]
            | inversion 1; subst; solve [assumption | exfalso; eapply V; eassumption]]).
Qed.

(** A non-empty word of [Star r] starts with a non-empty word of [r]. *)
Lemma star_cons_inv (r : re) (s : string) :
  Lang (Star r) s ->
  forall c t, s = String c t ->
  exists t1 t2, t = (t1 ++ t2)%string /\ Lang r (String c t1) /\ Lang (Star r) t2.
Proof.
  intros H. remember (Star r) as sr eqn:E.
  induction H as [| | | | | |r' s1 s2 H1 _ H2 IH2]; try discriminate.
  injection E as ->. intros c t Hs. destruct s1 as [|d s1]; simpl in Hs.
  - apply (IH2 eq_refl c t Hs).
  - inversion Hs; subst. exists s1, s2. auto.
Qed.

Lemma deriv_Lang (r : re) : forall c s, Lang (deriv c r) s <-> Lang r (String c s).
Proof.
  induction r as [| |p|r1 IH1 r2 IH2|r1 IH1 r2 IH2|r IH]; intros c s; simpl.
  - split; inversion 1.
  - split; inversion 1.
  - destruct (p c) eqn:Hp.
    + split.
      * inversion 1; subst. now constructor.
      * inversion 1; subst. constructor.
    + split; [inversion 1 | inversion 1; subst; congruence].
  - assert (step : Lang (cat (deriv c r1) r2) s <->
                   exists s1 s2, s = (s1 ++ s2)%string /\ Lang r1 (String c s1) /\ Lang r2 s2).
    { rewrite cat_Lang. split.
      - inversion 1 as [| |? ? s1 s2 H1 H2| | | |]; subst.
        exists s1, s2. rewrite <- IH1. auto.
      - intros (s1 & s2 & -> & H1 & H2). constructor; [now apply IH1 | exact H2]. }
    destruct (nullable r1) eqn:Hn.
    + rewrite alt_Lang. split.
      * inversion 1 as [| | |? ? ? Hl|? ? ? Hr| |]; subst.
        -- apply step in Hl as (s1 & s2 & -> & H1 & H2).
           change (String c (s1 ++ s2)) with (String c s1 ++ s2)%string. now constructor.
        -- change (String c s) with (EmptyString ++ String c s)%string.
           constructor; [now apply nullable_Lang | now apply IH2].
      * inversion 1 as [| |? ? s1 s2 H1 H2 E1 E2| | | |]; subst.
        destruct s1 as [|d s1]; simpl in E2.
        -- subst. apply L_alt_r. now apply IH2.
        -- inversion E2; subst. apply L_alt_l. apply step. exists s1, s2; auto.
    + rewrite step. split.
      * intros (s1 & s2 & -> & H1 & H2).
        change (String c (s1 ++ s2)) with (String c s1 ++ s2)%string. now constructor.
      * inversion 1 as [| |? ? s1 s2 H1 H2 E1 E2| | | |]; subst.
        destruct s1 as [|d s1]; simpl in E2.
        -- apply nullable_Lang in H1. congruence.
        -- inversion E2; subst. exists s1, s2; auto.
  - rewrite alt_Lang. split.
    + inversion 1; subst; [apply L_alt_l; now apply IH1 | apply L_alt_r; now apply IH2].
    + inversion 1; subst; [apply L_alt_l; now apply IH1 | apply L_alt_r; now apply IH2].
  - rewrite cat_Lang. split.
    + inversion 1 as [| |? ? s1 s2 H1 H2| | | |]; subst.
      change (String c (s1 ++ s2)) with (String c s1 ++ s2)%string.
      constructor; [now apply IH | exact H2].
    + intros H. destruct (star_cons_inv H eq_refl) as (t1 & t2 & -> & H1 & H2).
      constructor; [now apply IH | exact H2].
Qed.

Lemma matches_Lang (s : string) : forall r, matches r s = true <-> Lang r s.
Proof.
  induction s as [|c s IH]; intros r; simpl.
  - apply nullable_Lang.
  - rewrite IH. apply deriv_Lang.
Qed.

Lemma any_Lang (s : string) : Lang any s.
Proof.
  induction s as [|c s IH].
  - constructor.
  - change (String c s) with (String c EmptyString ++ s)%string.
    constructor; [now constructor | exact IH].
Qed.

(** [test] searches: some substring of the text is in the language. *)
Lemma test_Lang (r : re) (s : string) :
  test r s = true <->
  exists before found after, s = (before ++ found ++ after)%string /\ Lang r found.
Proof.
  unfold test. rewrite matches_Lang. split.
  - inversion 1 as [| |? ? s1 s2 _ H2| | | |]; subst.
    inversion H2 as [| |? ? t1 t2 H3 _| | | |]; subst.
    now exists s1, t1, t2.
  - intros (before & found & after & -> & H).
    constructor; [apply any_Lang|]. constructor; [exact H | apply any_Lang].
Qed.

End RegexFacts.

(** ** The definitions at work *)

Example require_call_same_line :
  Regex.test require_call "require(msg.sender.call(data), 'failed');" = true.
Proof. reflexivity. Qed.

Example require_call_spaced :
  Regex.test require_call "require  ( target .call  (data))" = true.
Proof. reflexivity. Qed.

Example require_call_other_line :
  Regex.test require_call
    ("require(ok);" ++ String (ascii_of_nat 10) "target.call(data);") = false.
Proof. reflexivity. Qed.

Example bytecode_token_before_solidity :
  detectContractTypeFromBytecode "0x608060405206fdde0395d89b4118160ddd"
  = "Likely Token (ERC20/ERC721)".
Proof. reflexivity. Qed.

Example bytecode_two_selectors_only :
  detectContractTypeFromBytecode "0x608060405206fdde0395d89b41"
  = "Solidity 0.4.x+ Contract".
Proof. reflexivity. Qed.

Example standards_null_entry_throws :
  detectContractStandards Sample.checksummed (JArr [function_entry "transfer"; JNull])
  = Throw "Cannot read properties of null (reading 'type')".
Proof. reflexivity. Qed.

Example standards_not_an_array :
  detectContractStandards Sample.checksummed (JObj [("type", JStr "function")])
  = Ok (Standards.mk false false false).
Proof. reflexivity. Qed.

Example security_unchecked_call :
  analyzeContractSecurity (JStr "target.call(data); selfdestruct(owner);")
  = Ok (SecurityAnalysis.mk true [unchecked_call; self_destruct]).
Proof. reflexivity. Qed.

Example security_source_not_a_string :
  analyzeContractSecurity (JObj [("length", JNum 3)])
  = Throw "sourceCode.includes is not a function".
Proof. reflexivity. Qed.

Example audit_invalid_address :
  analyzeAddress Sample.empty_account "0x12"
  = fallback_report "0x12" "Invalid Ethereum address format".
Proof. reflexivity. Qed.

(** ** [detectContractTypeFromBytecode]: the first matching rule wins *)

Lemma detect_first_match (bytecode : string) :
  detectContractTypeFromBytecode bytecode =
  match matching_positions bytecode with
  | [] => unknown_label
  | position :: _ => snd (rule_at position)
  end.
Proof.
  unfold detectContractTypeFromBytecode, matching_positions, rule_matches, rule_at.
  cbn [bytecode_rules List.length seq filter nth fst snd forallb].
  destruct (Str.includes bytecode "06fdde03"), (Str.includes bytecode "95d89b41"),
    (Str.includes bytecode "18160ddd"), (Str.includes bytecode "01ffc9a7"),
    (Str.includes bytecode "e8a3d485"), (Str.includes bytecode "6080604052");
    reflexivity.
Qed.

(** C4: the rules of [detectContractTypeFromBytecode] are tried in their
    declared order and the first that matches gives the label: when the
    bytecode matches rules at two positions (or more) the label is the
    one of the earliest position; a bytecode that contains the selectors
    06fdde03, 95d89b41 and 18160ddd is labelled "Likely Token
    (ERC20/ERC721)"; a bytecode that matches no rule gets the unknown
    label. *)
Theorem C4_first_matching_rule (bytecode : string) :
  detectContractTypeFromBytecode bytecode =
    match matching_positions bytecode with
    | [] => unknown_label
    | position :: _ => snd (rule_at position)
    end /\
  (forall earlier later rest,
      matching_positions bytecode = earlier :: later :: rest ->
      (earlier < later)%nat /\
      detectContractTypeFromBytecode bytecode = snd (rule_at earlier)) /\
  (Str.Substring "06fdde03" bytecode ->
   Str.Substring "95d89b41" bytecode ->
   Str.Substring "18160ddd" bytecode ->
   detectContractTypeFromBytecode bytecode = "Likely Token (ERC20/ERC721)") /\
  (matching_positions bytecode = [] ->
   detectContractTypeFromBytecode bytecode = "Unknown Contract Type").
Proof.
  split; [apply detect_first_match|]. split; [|split].
  - intros earlier later rest H. split.
    + revert H. unfold matching_positions.
      cbn [bytecode_rules List.length seq filter].
      repeat match goal with
             | |- context [rule_matches ?b ?r] => destruct (rule_matches b r)
             end;
        intros H; inversion H; subst; lia.
    + rewrite detect_first_match, H. reflexivity.
  - intros H1 H2 H3. apply includes_Substring in H1, H2, H3.
    unfold detectContractTypeFromBytecode. now rewrite H1, H2, H3.
  - intros H. rewrite detect_first_match, H. reflexivity.
Qed.

Lemma C4_first_matching_rule_witness :
  detectContractTypeFromBytecode "0x608060405201ffc9a7" = snd (rule_at 1) /\
  detectContractTypeFromBytecode "0x06fdde03_95d89b41_18160ddd"
    = "Likely Token (ERC20/ERC721)" /\
  detectContractTypeFromBytecode "0xfe" = "Unknown Contract Type".
Proof.
  split; [|split].
  - apply (proj1 (proj2 (C4_first_matching_rule "0x608060405201ffc9a7")) 1%nat 3%nat []).
    reflexivity.
  - apply (proj1 (proj2 (proj2 (C4_first_matching_rule "0x06fdde03_95d89b41_18160ddd")))).
    + exists "0x", "_95d89b41_18160ddd". reflexivity.
    + exists "0x06fdde03_", "_18160ddd". reflexivity.
    + exists "0x06fdde03_95d89b41_", EmptyString. reflexivity.
  - apply (proj2 (proj2 (proj2 (C4_first_matching_rule "0xfe")))). reflexivity.
Defined.

(** ** [detectContractStandards] *)

Lemma is_str_eq (v : jsval) (lit : string) : Js.is_str v lit = true <-> v = JStr lit.
Proof.
  destruct v; simpl; try (split; [discriminate | intros H; discriminate]).
  rewrite String.eqb_eq. split; [now intros -> | now inversion 1].
Qed.

Lemma get_readable (item : jsval) (name : string) :
  readable item -> exists v, Js.get item name = Ok v.
Proof.
  intros [Hn Hu]. destruct item; simpl; try congruence; eauto.
Qed.

Lemma get_Ok_readable (item : jsval) (name : string) (v : jsval) :
  Js.get item name = Ok v -> readable item.
Proof.
  destruct item; simpl; try discriminate; intros _; split; discriminate.
Qed.

(** The names the source collects are those of the function-type
    entries, and collecting them succeeds on readable entries. *)
Lemma functionNames_of_spec (items : list jsval) :
  Forall readable items ->
  exists functionNames,
    functionNames_of items = Ok functionNames /\
    forall name, names_include functionNames name = true <-> Declares items name.
Proof.
  unfold functionNames_of, names_include, Declares.
  induction 1 as [|item items Hitem _ IH].
  - exists []. split; [reflexivity|]. intros name; simpl.
    split; [discriminate | intros (item & [] & _)].
  - destruct IH as (names & Hnames & IH).
    destruct (filterM _ items) as [functions|] eqn:Hf; [|discriminate].
    simpl in Hnames.
    destruct (get_readable "type" Hitem) as [ty Hty].
    destruct (get_readable "name" Hitem) as [nm Hnm].
    cbn [filterM]. rewrite Hty, Hf. simpl.
    destruct (Js.is_str ty "function") eqn:Hfun.
    + exists (nm :: names). cbn [mapM]. rewrite Hnm, Hnames. split; [reflexivity|].
      intros name. cbn [existsb]. rewrite orb_true_iff, IH, is_str_eq.
      apply is_str_eq in Hfun. subst ty. split.
      * intros [->|(it & Hin & H1 & H2)].
        -- exists item. simpl; auto.
        -- exists it. simpl; auto.
      * intros (it & [<-|Hin] & H1 & H2).
        -- left. congruence.
        -- right. now exists it.
    + exists names. split; [exact Hnames|].
      intros name. rewrite IH. split.
      * intros (it & Hin & H1 & H2). exists it. simpl; auto.
      * intros (it & [<-|Hin] & H1 & H2).
        -- rewrite Hty in H1. inversion H1; subst. discriminate.
        -- now exists it.
Qed.

Lemma every_included_spec (required : list string) (functionNames : list jsval)
      (items : list jsval) :
  (forall name, names_include functionNames name = true <-> Declares items name) ->
  every_included required functionNames = true <-> Forall (Declares items) required.
Proof.
  intros H. unfold every_included. rewrite forallb_forall, Forall_forall.
  split; intros Hall name Hin; apply H; auto.
Qed.

(** On an ABI whose entries are readable the detector answers, and each
    flag says that the ABI declares every required name. *)
Lemma detectContractStandards_spec (address : string) (abi : jsval) :
  Forall readable (entries abi) ->
  exists s,
    detectContractStandards address abi = Ok s /\
    (Standards.isERC20 s = true <-> Forall (Declares (entries abi)) erc20Functions) /\
    (Standards.isERC721 s = true <-> Forall (Declares (entries abi)) erc721Functions) /\
    (Standards.isERC1155 s = true <-> Forall (Declares (entries abi)) erc1155Functions).
Proof.
  intros Hread. destruct abi as [| | | | |items|];
    try (exists (Standards.mk false false false);
         split; [unfold detectContractStandards; cbn [Js.isArray negb];
                 now rewrite orb_true_r|];
         repeat split; try discriminate;
         unfold erc20Functions, erc721Functions, erc1155Functions;
         intros H; apply Forall_inv in H; destruct H as (item & Hin & _);
         exact (False_ind _ Hin)).
  simpl in Hread. destruct (functionNames_of_spec Hread) as (names & Hnames & Hspec).
  unfold detectContractStandards. cbn [Js.truthy Js.isArray negb orb].
  rewrite Hnames. cbn [bind]. eexists. split; [reflexivity|].
  cbn [Standards.isERC20 Standards.isERC721 Standards.isERC1155 entries].
  repeat split; intros H;
    first [now apply (@every_included_spec _ _ _ Hspec)
          |now apply (@every_included_spec _ _ _ Hspec) in H].
Qed.

(** C3: for every ABI (with readable entries) [detectContractStandards]
    declares ERC20, ERC721 or ERC1155 present exactly when every name of
    that standard's required list is the name of a function-type entry of
    the ABI; the three checks are independent, so an ABI that declares
    the whole ERC-20 list and the whole ERC-721 list has both flags
    set. *)
Theorem C3_standard_iff_all_required (address : string) (abi : jsval) :
  Forall readable (entries abi) ->
  exists s,
    detectContractStandards address abi = Ok s /\
    (Standards.isERC20 s = true <-> Forall (Declares (entries abi)) erc20Functions) /\
    (Standards.isERC721 s = true <-> Forall (Declares (entries abi)) erc721Functions) /\
    (Standards.isERC1155 s = true <-> Forall (Declares (entries abi)) erc1155Functions) /\
    (Forall (Declares (entries abi)) erc20Functions ->
     Forall (Declares (entries abi)) erc721Functions ->
     Standards.isERC20 s = true /\ Standards.isERC721 s = true).
Proof.
  intros Hread.
  destruct (detectContractStandards_spec address abi Hread) as (s & Hs & H20 & H721 & H1155).
  exists s. repeat split; try apply H20; try apply H721; try apply H1155; auto.
Qed.

Lemma C3_standard_iff_all_required_witness :
  exists s,
    detectContractStandards "0xde0B295669a9FD93d5F28D9Ec85E40f4cb697BAe"
                            erc20_and_erc721_abi = Ok s /\
    Standards.isERC20 s = true /\ Standards.isERC721 s = true /\
    Standards.isERC1155 s = false.
Proof.
  assert (Hread : Forall readable (entries erc20_and_erc721_abi)).
  { repeat constructor; discriminate. }
  destruct (C3_standard_iff_all_required
              "0xde0B295669a9FD93d5F28D9Ec85E40f4cb697BAe" erc20_and_erc721_abi Hread)
    as (s & Hs & _).
  exists s. split; [exact Hs|].
  vm_compute in Hs. inversion Hs; subst. repeat split.
Defined.

Lemma Declares_mono (items items' : list jsval) (name : string) :
  incl items items' -> Declares items name -> Declares items' name.
Proof.
  intros Hincl (item & Hin & H). exists item. split; [now apply Hincl | exact H].
Qed.

Lemma Forall_Declares_mono (items items' : list jsval) (required : list string) :
  incl items items' ->
  Forall (Declares items) required -> Forall (Declares items') required.
Proof.
  intros Hincl. apply Forall_impl. intros name. now apply Declares_mono.
Qed.

(** C9: [detectContractStandards] is monotonic: adding an entry (so, a
    function name) to an ABI anywhere never turns a flag that was true
    into false. *)
Theorem C9_standards_monotonic
        (address : string) (before after : list jsval) (entry : jsval)
        (s : Standards.t) :
  detectContractStandards address (JArr (before ++ after)) = Ok s ->
  readable entry ->
  exists s',
    detectContractStandards address (JArr (before ++ entry :: after)) = Ok s' /\
    (Standards.isERC20 s = true -> Standards.isERC20 s' = true) /\
    (Standards.isERC721 s = true -> Standards.isERC721 s' = true) /\
    (Standards.isERC1155 s = true -> Standards.isERC1155 s' = true).
Proof.
  intros Hs Hentry.
  assert (Hread : Forall readable (before ++ after)).
  { unfold detectContractStandards, functionNames_of in Hs.
    cbn [Js.truthy Js.isArray negb orb] in Hs.
    destruct (filterM _ (before ++ after)) as [functions|] eqn:Hf; [|discriminate].
    clear Hs. revert functions Hf.
    induction (before ++ after)%list as [|item items IH]; intros functions Hf.
    - constructor.
    - cbn [filterM] in Hf.
      destruct (Js.get item "type") as [ty|] eqn:Hty; [|discriminate].
      cbn [bind] in Hf.
      destruct (filterM _ items) as [rest|] eqn:Hrest; [|discriminate].
      constructor; [now apply get_Ok_readable in Hty | now apply (IH rest)]. }
  assert (Hread' : Forall readable (before ++ entry :: after)).
  { apply Forall_app in Hread as [Hb Ha]. apply Forall_app. split; [exact Hb|].
    now constructor. }
  assert (Hincl : incl (before ++ after) (before ++ entry :: after)).
  { intros x Hx. apply in_app_or in Hx as [Hx|Hx]; apply in_or_app;
      [now left | right; now right]. }
  destruct (detectContractStandards_spec address (JArr (before ++ after)) Hread)
    as (s0 & Hs0 & H20 & H721 & H1155).
  rewrite Hs in Hs0. injection Hs0 as <-.
  destruct (detectContractStandards_spec address (JArr (before ++ entry :: after)) Hread')
    as (s' & Hs' & H20' & H721' & H1155').
  cbn [entries] in *.
  exists s'. split; [exact Hs'|].
  repeat split; intros H.
  - apply H20'. apply (Forall_Declares_mono Hincl). now apply H20.
  - apply H721'. apply (Forall_Declares_mono Hincl). now apply H721.
  - apply H1155'. apply (Forall_Declares_mono Hincl). now apply H1155.
Qed.

Lemma C9_standards_monotonic_witness :
  exists s',
    detectContractStandards "0xde0B295669a9FD93d5F28D9Ec85E40f4cb697BAe"
      (JArr (erc20_abi ++ function_entry "mint" :: [])) = Ok s' /\
    (true = true -> Standards.isERC20 s' = true) /\
    (false = true -> Standards.isERC721 s' = true) /\
    (false = true -> Standards.isERC1155 s' = true).
Proof.
  apply (@C9_standards_monotonic "0xde0B295669a9FD93d5F28D9Ec85E40f4cb697BAe"
           erc20_abi [] (function_entry "mint") (Standards.mk true false false)).
  - reflexivity.
  - split; discriminate.
Defined.

(** ** [analyzeContractSecurity] on a source text *)

Lemma andM_Ok (a b : bool) : andM (Ok a) (Ok b) = Ok (a && b).
Proof. now destruct a. Qed.

Lemma orM_Ok (a b : bool) : orM (Ok a) (Ok b) = Ok (a || b).
Proof. now destruct a. Qed.

Lemma notM_Ok (a : bool) : notM (Ok a) = Ok (negb a).
Proof. reflexivity. Qed.

Lemma analyzeContractSecurity_text (text : string) :
  analyzeContractSecurity (JStr text) =
  Ok (SecurityAnalysis.mk (0 <? List.length (triggered text))%nat (triggered text)).
Proof.
  unfold analyzeContractSecurity, triggered, security_rules.
  cbn [includes match_].
  rewrite !notM_Ok, !orM_Ok, !andM_Ok. cbn [bind filter fst snd map].
  destruct (Str.includes text "call.value" && negb (Str.includes text "ReentrancyGuard")),
    (Str.includes text "tx.origin"),
    ((Str.includes text ".call(" || Str.includes text ".delegatecall(")
     && negb (Regex.test require_call text)),
    (Str.includes text "block.timestamp" || Str.includes text "now"),
    (Str.includes text "selfdestruct" || Str.includes text "suicide");
    reflexivity.
Qed.

Lemma triggered_once (text : string) : NoDup (triggered text).
Proof.
  unfold triggered, security_rules. cbn [filter fst snd map].
  destruct (Str.includes text "call.value" && negb (Str.includes text "ReentrancyGuard")),
    (Str.includes text "tx.origin"),
    ((Str.includes text ".call(" || Str.includes text ".delegatecall(")
     && negb (Regex.test require_call text)),
    (Str.includes text "block.timestamp" || Str.includes text "now"),
    (Str.includes text "selfdestruct" || Str.includes text "suicide");
    cbn [map snd];
    repeat (constructor; [simpl; intuition discriminate|]); constructor.
Qed.

Lemma triggered_reentrancy (text : string) :
  Str.includes text "call.value" = true ->
  Str.includes text "ReentrancyGuard" = false ->
  List.length (filter is_reentrancy (triggered text)) = 1%nat /\
  hd_error (triggered text) = Some reentrancy.
Proof.
  intros H1 H2. unfold triggered, security_rules. cbn [filter fst snd map].
  rewrite H1, H2. cbn [andb negb].
  destruct (Str.includes text "tx.origin"),
    ((Str.includes text ".call(" || Str.includes text ".delegatecall(")
     && negb (Regex.test require_call text)),
    (Str.includes text "block.timestamp" || Str.includes text "now"),
    (Str.includes text "selfdestruct" || Str.includes text "suicide");
    split; reflexivity.
Qed.

(** C5: [analyzeContractSecurity] evaluates the five rules one after
    the other, none depending on another; each rule adds at most one
    finding, and the findings come in the order of the rules
    (reentrancy, tx.origin, unchecked external call, timestamp
    dependence, self-destruct).  In particular a source text that
    contains "call.value" and does not contain "ReentrancyGuard" gets
    exactly one finding titled "Potential reentrancy vulnerability", of
    severity High. *)
Theorem C5_all_rules_in_order (sourceCode : string) :
  map snd security_rules =
    [reentrancy; tx_origin; unchecked_call; timestamp_dependence; self_destruct] /\
  exists analysis,
    analyzeContractSecurity (JStr sourceCode) = Ok analysis /\
    SecurityAnalysis.issues analysis =
      map snd (filter (fun rule => fst rule sourceCode) security_rules) /\
    SecurityAnalysis.issuesFound analysis =
      (0 <? List.length (SecurityAnalysis.issues analysis))%nat /\
    NoDup (SecurityAnalysis.issues analysis) /\
    (Str.Substring "call.value" sourceCode ->
     ~ Str.Substring "ReentrancyGuard" sourceCode ->
     List.length (filter is_reentrancy (SecurityAnalysis.issues analysis)) = 1%nat /\
     In reentrancy (SecurityAnalysis.issues analysis) /\
     Finding.severity reentrancy = "High").
Proof.
  split; [reflexivity|].
  eexists. split; [apply analyzeContractSecurity_text|].
  cbn [SecurityAnalysis.issues SecurityAnalysis.issuesFound].
  split; [reflexivity|]. split; [reflexivity|]. split; [apply triggered_once|].
  intros H1 H2. apply includes_Substring in H1. apply includes_false in H2.
  destruct (triggered_reentrancy sourceCode H1 H2) as [Hone Hhd].
  split; [exact Hone|]. split; [|reflexivity].
  destruct (triggered sourceCode) as [|first rest]; [discriminate|].
  injection Hhd as ->. now left.
Qed.

Lemma C5_all_rules_in_order_witness :
  exists analysis,
    analyzeContractSecurity (JStr wallet_source) = Ok analysis /\
    List.length (filter is_reentrancy (SecurityAnalysis.issues analysis)) = 1%nat.
Proof.
  destruct (C5_all_rules_in_order wallet_source)
    as (_ & analysis & Hrun & _ & _ & _ & Hre).
  exists analysis. split; [exact Hrun|].
  apply Hre.
  - exists "function withdraw() public { msg.sender.", "(balance)(); }". reflexivity.
  - apply includes_false. reflexivity.
Defined.

(** ** The helpers never throw *)

Section PipelineFacts.

Variable w : World.

Lemma try_catch_Ok {A} (m : outcome A) (fallback : A) :
  exists a, try_catch m (fun _ => Ok fallback) = Ok a.
Proof. destruct m; simpl; eauto. Qed.

Lemma checkIfContract_total (address : string) :
  exists isContract, checkIfContract w address = Ok isContract.
Proof. apply try_catch_Ok. Qed.

Lemma getContractCreationInfo_total (address : string) :
  exists creationInfo, getContractCreationInfo w address = Ok creationInfo.
Proof. apply try_catch_Ok. Qed.

Lemma checkIfVerified_total (address : string) :
  exists verificationInfo, checkIfVerified w address = Ok verificationInfo.
Proof. apply try_catch_Ok. Qed.

(** One step of a [try] body under analysis: split on the outcome of
    its first call, or on the condition it branches on; a branch that
    ends in the handler is closed with [crash]. *)
Ltac crash H := solve [inversion H; subst; simpl in *; congruence].

Ltac step H :=
  match type of H with
  | try_catch (bind ?m _) _ = _ =>
      destruct m eqn:?; cbn [bind try_catch] in H; [|crash H]
  | try_catch (if ?b then _ else _) _ = _ =>
      destruct b eqn:?; cbn [bind try_catch] in H; try crash H
  end.

(** The value of the verification chain is either falsy or [true], and
    it is [true] only for a truthy source. *)
Lemma isVerified_of_true (contractData v : jsval) :
  isVerified_of w contractData = Ok v ->
  Js.truthy v = true ->
  v = JBool true /\
  exists SourceCode,
    Js.get contractData "SourceCode" = Ok SourceCode /\ Js.truthy SourceCode = true.
Proof.
  unfold isVerified_of. intros H Hv.
  destruct (Js.get contractData "SourceCode") as [SourceCode|]; [|discriminate].
  cbn [bind] in H. destruct (Js.truthy SourceCode) eqn:Ht; cbn [negb] in H.
  - destruct (Js.is_str SourceCode "{}").
    + inversion H; subst. discriminate.
    + destruct (Js.get SourceCode "length") as [len|]; [|discriminate].
      cbn [bind] in H. inversion H; subst. simpl in Hv. rewrite Hv. eauto.
  - inversion H; subst. congruence.
Qed.

(** A verified answer has [isVerified] equal to [true] and carries a
    truthy source. *)
Lemma checkIfVerified_verified (address : string) (info : VerificationInfo.t) :
  checkIfVerified w address = Ok info ->
  Js.truthy (VerificationInfo.isVerified info) = true ->
  VerificationInfo.isVerified info = JBool true /\
  Js.truthy (VerificationInfo.sourceCode info) = true.
Proof.
  unfold checkIfVerified. intros H Hv.
  do 6 step H.
  match goal with
  | E : isVerified_of _ _ = Ok ?v |- _ =>
      assert (Hchain : Js.truthy v = true -> _) by apply (isVerified_of_true _ E)
  end.
  do 3 step H.
  inversion H; subst; simpl in *.
  destruct (Hchain Hv) as (-> & source & Hsource & Htruthy).
  split; [reflexivity | congruence].
Qed.

(** ** What the classification steps leave in the report *)

Lemma classify_fields (formattedAddress : string) (result result' : Report.t) :
  classify w formattedAddress result = Ok result' ->
  Report.standards result = None ->
  Report.probableType result = None ->
  Report.address result' = Report.address result /\
  Report.isContract result' = Report.isContract result /\
  (Report.standards result' <> None <-> Report.isVerified result' = JBool true) /\
  (Report.probableType result' <> None <-> Js.truthy (Report.isVerified result') = false) /\
  (Js.truthy (Report.isVerified result') = true <-> Report.isVerified result' = JBool true).
Proof.
  unfold classify. intros H Hs Hp.
  destruct (checkIfVerified w formattedAddress) as [info|] eqn:Hinfo; [|discriminate].
  cbn [bind] in H.
  destruct (getCode w 1 formattedAddress) as [bytecode|]; [|discriminate].
  cbn [bind] in H.
  pose proof (checkIfVerified_verified _ Hinfo) as Htrue.
  destruct (Js.truthy (VerificationInfo.isVerified info)) eqn:Hv.
  - destruct (Htrue eq_refl) as [Htrue' _]. clear Htrue. rename Htrue' into Htrue.
    destruct (detectContractStandards _ _) as [standards|]; [|discriminate].
    cbn [bind andb] in H.
    destruct (Js.truthy (VerificationInfo.sourceCode info)).
    + destruct (analyzeContractSecurity _) as [analysis|]; [|discriminate].
      inversion H; subst; simpl. rewrite Htrue.
      repeat split; intros; try discriminate; try congruence; auto.
    + inversion H; subst; simpl. rewrite Htrue.
      repeat split; intros; try discriminate; try congruence; auto.
  - cbn [bind andb] in H. inversion H; subst; simpl. rewrite Hv, Hs.
    repeat split; intros; try discriminate; try congruence.
    all: match goal with
         | E : _ = JBool true |- _ =>
             rewrite E in Hv; discriminate
         end.
Qed.

End PipelineFacts.

(** ** The report of [analyzeAddress] *)

Section ReportFacts.

Variable w : World.

Lemma record_creation_fields (creationInfo : option CreationInfo.t) (result : Report.t) :
  let result' := record_creation creationInfo result in
  Report.address result' = Report.address result /\
  Report.isContract result' = Report.isContract result /\
  Report.standards result' = Report.standards result /\
  Report.probableType result' = Report.probableType result.
Proof. destruct creationInfo; simpl; auto. Qed.

(** Without a fallback the address was accepted and the body ran to its
    [return]. *)
Lemma fell_back_false (address : string) :
  fell_back w address = false ->
  exists result,
    analyzeAddress_try w address = Ok result /\ analyzeAddress w address = result.
Proof.
  unfold fell_back, analyzeAddress.
  destruct (analyzeAddress_try w address) as [result|]; [eauto | discriminate].
Qed.

Lemma fell_back_true (address : string) :
  fell_back w address = true ->
  exists message,
    analyzeAddress_try w address = Throw message /\
    analyzeAddress w address = fallback_report address message.
Proof.
  unfold fell_back, analyzeAddress.
  destruct (analyzeAddress_try w address) as [|message]; [discriminate | eauto].
Qed.

(** What a report that came out of the body of the [try] satisfies. *)
Lemma analyzeAddress_try_fields (address : string) (result : Report.t) :
  analyzeAddress_try w address = Ok result ->
  Report.address result = toChecksumAddress w address /\
  (Report.standards result <> None <-> Report.isVerified result = JBool true) /\
  (Report.probableType result <> None <->
   Report.isContract result = true /\ Js.truthy (Report.isVerified result) = false) /\
  (Js.truthy (Report.isVerified result) = true <-> Report.isVerified result = JBool true).
Proof.
  unfold analyzeAddress_try. intros H.
  destruct (isAddress w address); cbn [negb] in H; [|discriminate].
  destruct (checkIfContract_total w (toChecksumAddress w address)) as [isContract Hc].
  rewrite Hc in H. cbn [bind] in H. destruct isContract; cbn [negb] in H.
  - destruct (getContractCreationInfo_total w (toChecksumAddress w address))
      as [creationInfo Hi].
    rewrite Hi in H. cbn [bind] in H.
    pose proof (record_creation_fields creationInfo
                  (initial_report (toChecksumAddress w address) true))
      as (Ha & Hb & Hs & Hp).
    destruct (classify_fields _ _ _ H) as (Ha' & Hb' & Hs' & Hp' & Hv');
      [now rewrite Hs | now rewrite Hp |].
    rewrite Ha', Ha, Hb', Hb. cbn [initial_report Report.address Report.isContract].
    repeat split; try tauto.
  - unfold not_a_contract in H.
    destruct (getBalance w _) as [balance|]; [|discriminate]. cbn [bind] in H.
    destruct (getTransactionCount w _) as [txCount|]; [|discriminate]. cbn [bind] in H.
    inversion H; subst; simpl.
    repeat split; intros; try discriminate; try congruence; try tauto.
    all: match goal with E : _ /\ _ |- _ => destruct E; discriminate end.
Qed.

(** C1: in every report of [analyzeAddress], [standards] is populated
    exactly when [isVerified] is true, [probableType] is populated
    exactly when [isContract] is true and [isVerified] is false, and the
    two are never populated together. *)
Theorem C1_standards_iff_verified (address : string) :
  let report := analyzeAddress w address in
  (Report.standards report <> None <-> Report.isVerified report = JBool true) /\
  (Report.probableType report <> None <->
   Report.isContract report = true /\ Js.truthy (Report.isVerified report) = false) /\
  ~ (Report.standards report <> None /\ Report.probableType report <> None) /\
  (Js.truthy (Report.isVerified report) = true <-> Report.isVerified report = JBool true).
Proof.
  cbv zeta. destruct (fell_back w address) eqn:Hfb.
  - destruct (fell_back_true _ Hfb) as (message & _ & ->). simpl.
    repeat split; intros; try discriminate; try congruence; try tauto.
    all: match goal with E : _ /\ _ |- _ => destruct E; congruence end.
  - destruct (fell_back_false _ Hfb) as (result & Htry & ->).
    destruct (analyzeAddress_try_fields _ Htry) as (_ & Hs & Hp & Hv).
    repeat split; try tauto.
    intros [H1 H2]. apply Hs in H1. apply Hp in H2 as [_ H2].
    rewrite H1 in H2. discriminate.
Qed.

End ReportFacts.

(** ** Addresses without code *)

Section NotAContract.

Variable w : World.

Lemma checkIfContract_empty (address : string) :
  empty_code w address -> checkIfContract w (toChecksumAddress w address) = Ok false.
Proof. unfold checkIfContract. intros [-> | ->]; reflexivity. Qed.

(** Once the contract check says no, the audit is the not-a-contract
    branch, whatever made the check say no. *)
Lemma analyzeAddress_try_not_a_contract (address : string) :
  isAddress w address = true ->
  checkIfContract w (toChecksumAddress w address) = Ok false ->
  analyzeAddress_try w address =
  not_a_contract w (toChecksumAddress w address)
                 (initial_report (toChecksumAddress w address) false).
Proof.
  intros Ha Hc. unfold analyzeAddress_try. now rewrite Ha, Hc.
Qed.

Lemma not_a_contract_cases (formattedAddress : string) :
  match not_a_contract w formattedAddress (initial_report formattedAddress false) with
  | Ok result =>
      exists balance txCount,
        getBalance w formattedAddress = Ok balance /\
        getTransactionCount w formattedAddress = Ok txCount /\
        result = account_report w formattedAddress balance txCount
  | Throw message =>
      getBalance w formattedAddress = Throw message \/
      getTransactionCount w formattedAddress = Throw message
  end.
Proof.
  unfold not_a_contract.
  destruct (getBalance w formattedAddress) as [balance|]; cbn [bind]; [|now left].
  destruct (getTransactionCount w formattedAddress) as [txCount|]; cbn [bind]; [|now right].
  now exists balance, txCount.
Qed.

(** Every report on an address whose check says no has the contract
    fields absent. *)
Lemma no_contract_fields (address : string) :
  checkIfContract w (toChecksumAddress w address) = Ok false ->
  let report := analyzeAddress w address in
  Report.isContract report = false /\
  Report.standards report = None /\
  Report.probableType report = None /\
  Report.securityAnalysis report = None /\
  exists note, Report.error report = JStr note.
Proof.
  intros Hc. cbv zeta. unfold analyzeAddress.
  destruct (isAddress w address) eqn:Ha.
  - rewrite (analyzeAddress_try_not_a_contract _ Ha Hc).
    pose proof (not_a_contract_cases (toChecksumAddress w address)) as H.
    destruct (not_a_contract _ _ _) as [result|message].
    + destruct H as (balance & txCount & _ & _ & ->). simpl. eauto 10.
    + simpl. eauto 10.
  - unfold analyzeAddress_try. rewrite Ha. simpl. eauto 10.
Qed.

(** C2, amended: when [getCode] answers the empty-code sentinel the
    report has [isContract] false and no [standards], [probableType] or
    security findings; [ethBalance] and [transactionCount] are present
    when the address is valid and the balance and transaction-count
    reads succeed. *)
Theorem C2_empty_code_report (address : string) :
  empty_code w address ->
  let report := analyzeAddress w address in
  Report.isContract report = false /\
  Report.standards report = None /\
  Report.probableType report = None /\
  Report.securityAnalysis report = None /\
  (forall balance txCount,
      isAddress w address = true ->
      getBalance w (toChecksumAddress w address) = Ok balance ->
      getTransactionCount w (toChecksumAddress w address) = Ok txCount ->
      Report.ethBalance report = Some (fromWei w balance) /\
      Report.transactionCount report = Some txCount).
Proof.
  intros Hempty. apply checkIfContract_empty in Hempty.
  destruct (no_contract_fields _ Hempty) as (H1 & H2 & H3 & H4 & _).
  cbv zeta. repeat (split; [assumption|]).
  intros balance txCount Ha Hb Ht. unfold analyzeAddress.
  rewrite (analyzeAddress_try_not_a_contract _ Ha Hempty).
  unfold not_a_contract. rewrite Hb, Ht. simpl. auto.
Qed.

(** C10: the report that the not-a-contract branch returns for an
    address with empty code carries the error note 'Address is not a
    contract', a non-empty string, although nothing failed. *)
Theorem C10_not_a_contract_note (address : string) :
  empty_code w address ->
  fell_back w address = false ->
  let report := analyzeAddress w address in
  Report.isContract report = false /\
  Report.error report = JStr "Address is not a contract" /\
  Js.truthy (Report.error report) = true /\
  Report.ethBalance report <> None /\
  Report.transactionCount report <> None.
Proof.
  intros Hempty Hfb. apply checkIfContract_empty in Hempty.
  destruct (fell_back_false _ _ Hfb) as (result & Htry & ->).
  assert (Ha : isAddress w address = true).
  { unfold analyzeAddress_try in Htry. destruct (isAddress w address);
      [reflexivity | discriminate]. }
  rewrite (analyzeAddress_try_not_a_contract _ Ha Hempty) in Htry.
  pose proof (not_a_contract_cases (toChecksumAddress w address)) as H.
  rewrite Htry in H. destruct H as (balance & txCount & _ & _ & ->).
  simpl. repeat split; discriminate.
Qed.

(** C6, amended: a failure of the [getCode] call of the contract check
    is caught inside [checkIfContract], which answers false; the audit
    goes on as for an address without code, so the report has
    [isContract] false and an error note, and when the balance and
    transaction-count reads succeed it is the ordinary not-a-contract
    report, not the one of the outer error boundary. *)
Theorem C6_getCode_failure_is_caught (address message : string) :
  isAddress w address = true ->
  getCode w 0 (toChecksumAddress w address) = Throw message ->
  let report := analyzeAddress w address in
  checkIfContract w (toChecksumAddress w address) = Ok false /\
  Report.isContract report = false /\
  (exists note, Report.error report = JStr note) /\
  (forall balance txCount,
      getBalance w (toChecksumAddress w address) = Ok balance ->
      getTransactionCount w (toChecksumAddress w address) = Ok txCount ->
      fell_back w address = false /\
      report = account_report w (toChecksumAddress w address) balance txCount).
Proof.
  intros Ha Hcode.
  assert (Hc : checkIfContract w (toChecksumAddress w address) = Ok false).
  { unfold checkIfContract. now rewrite Hcode. }
  destruct (no_contract_fields _ Hc) as (H1 & _ & _ & _ & H5).
  cbv zeta. repeat (split; [assumption|]).
  intros balance txCount Hb Ht. unfold fell_back, analyzeAddress.
  rewrite (analyzeAddress_try_not_a_contract _ Ha Hc).
  unfold not_a_contract. rewrite Hb, Ht. simpl. auto.
Qed.

(** C8, amended: a report that comes out of the body of the [try] has
    the checksum-cased form of the input as its [address]; the report
    of the outer error boundary has the input string itself. *)
Theorem C8_address_field (address : string) :
  let report := analyzeAddress w address in
  (fell_back w address = false -> Report.address report = toChecksumAddress w address) /\
  (fell_back w address = true -> Report.address report = address).
Proof.
  cbv zeta. split; intros Hfb.
  - destruct (fell_back_false _ _ Hfb) as (result & Htry & ->).
    now destruct (analyzeAddress_try_fields _ _ Htry) as (Haddr & _).
  - destruct (fell_back_true _ _ Hfb) as (message & _ & ->). reflexivity.
Qed.

End NotAContract.

(** ** Creation info when the later lookups fail *)

Section CreationInfoFacts.

Variable w : World.

Lemma creation_timestamp_total (txHash : jsval) :
  exists timestamp, creation_timestamp w txHash = Ok timestamp.
Proof. apply try_catch_Ok. Qed.

Lemma creation_timestamp_null (txHash : jsval) :
  later_lookups_fail w txHash -> creation_timestamp w txHash = Ok JNull.
Proof.
  unfold creation_timestamp. intros [[message ->]|Hblock]; [reflexivity|].
  destruct (axios_get w (GetTransactionByHash txHash)) as [txData|]; [|reflexivity].
  cbn [bind].
  destruct (Js.get txData "result") as [result|]; [|reflexivity].
  cbn [bind andM]. destruct (Js.truthy result); [|reflexivity].
  destruct (Js.get result "blockNumber") as [blockNumber|]; [|reflexivity].
  cbn [bind]. destruct (Js.truthy blockNumber); [|reflexivity].
  destruct (Hblock blockNumber) as [message ->]. reflexivity.
Qed.

Lemma getContractCreationInfo_later_fail
      (address : string) (first contractCreator txHash : jsval) :
  creation_found w address first ->
  Js.get first "contractCreator" = Ok contractCreator ->
  Js.get first "txHash" = Ok txHash ->
  later_lookups_fail w txHash ->
  getContractCreationInfo w address =
  Ok (Some (CreationInfo.mk contractCreator txHash JNull)).
Proof.
  intros (data & result & Hdata & Hstatus & Hresult & Htruthy & Hfirst & Hfirst')
         Hcreator Htx Hfail.
  unfold getContractCreationInfo, no_first_result.
  rewrite Hdata. cbn [bind]. rewrite Hstatus, Hresult. cbn [bind orM Js.is_str].
  rewrite Htruthy, Hfirst. cbn [bind negb String.eqb Ascii.eqb Bool.eqb].
  rewrite Hfirst'. cbn [negb]. rewrite Htx. cbn [bind].
  rewrite (creation_timestamp_null Hfail). cbn [bind].
  rewrite Hcreator. reflexivity.
Qed.

(** C7: when the creation lookup of [getContractCreationInfo] succeeds
    and the transaction and block lookups after it fail, the function
    still answers the creator and the creation transaction hash, with a
    [null] timestamp; the audit goes on to the verification and
    classification steps, and for a verified contract it ends with the
    complete report (verification data, standards, security analysis),
    not with the report of the outer error boundary. *)
Theorem C7_creation_info_without_timestamp
        (address : string) (first contractCreator txHash : jsval) :
  let formattedAddress := toChecksumAddress w address in
  isAddress w address = true ->
  checkIfContract w formattedAddress = Ok true ->
  creation_found w formattedAddress first ->
  Js.get first "contractCreator" = Ok contractCreator ->
  Js.get first "txHash" = Ok txHash ->
  later_lookups_fail w txHash ->
  let creation := CreationInfo.mk contractCreator txHash JNull in
  getContractCreationInfo w formattedAddress = Ok (Some creation) /\
  analyzeAddress_try w address =
    classify w formattedAddress
             (record_creation (Some creation) (initial_report formattedAddress true)) /\
  (forall info bytecode text,
      checkIfVerified w formattedAddress = Ok info ->
      VerificationInfo.isVerified info = JBool true ->
      VerificationInfo.sourceCode info = JStr text ->
      Forall readable (entries (VerificationInfo.abi info)) ->
      getCode w 1 formattedAddress = Ok bytecode ->
      exists standards analysis,
        detectContractStandards formattedAddress (VerificationInfo.abi info) = Ok standards /\
        analyzeContractSecurity (JStr text) = Ok analysis /\
        fell_back w address = false /\
        analyzeAddress w address =
          verified_report formattedAddress creation info bytecode standards analysis).
Proof.
  cbv zeta. intros Ha Hc Hfound Hcreator Htx Hfail.
  pose proof (getContractCreationInfo_later_fail Hfound Hcreator Htx Hfail) as Hinfo.
  assert (Htry : analyzeAddress_try w address =
                 classify w (toChecksumAddress w address)
                   (record_creation (Some (CreationInfo.mk contractCreator txHash JNull))
                      (initial_report (toChecksumAddress w address) true))).
  { unfold analyzeAddress_try. rewrite Ha, Hc. cbn [negb bind]. now rewrite Hinfo. }
  split; [exact Hinfo|]. split; [exact Htry|].
  intros info bytecode text Hv Htrue Hsource Hread Hcode.
  destruct (detectContractStandards_spec (toChecksumAddress w address) _ Hread)
    as (standards & Hstandards & _).
  exists standards. eexists. split; [exact Hstandards|].
  split; [apply analyzeContractSecurity_text|].
  unfold fell_back, analyzeAddress. rewrite Htry. unfold classify.
  rewrite Hv, Hcode. cbn [bind]. rewrite Htrue, Hsource. cbn [Js.truthy bind].
  rewrite Hstandards. cbn [bind andb].
  assert (Hsrc : Js.truthy (VerificationInfo.sourceCode info) = true).
  { apply (checkIfVerified_verified w _ Hv). now rewrite Htrue. }
  rewrite Hsource in Hsrc. cbn [Js.truthy] in Hsrc. rewrite Hsrc.
  rewrite analyzeContractSecurity_text. cbn [bind].
  split; [reflexivity|].
  unfold verified_report. simpl. rewrite Htrue, Hsource. reflexivity.
Qed.

End CreationInfoFacts.

(** ** The theorems at the sample worlds *)

Lemma C2_empty_code_report_witness :
  let report := analyzeAddress Sample.empty_account Sample.raw_address in
  Report.isContract report = false /\
  Report.standards report = None /\
  Report.probableType report = None /\
  Report.securityAnalysis report = None /\
  Report.ethBalance report = Some "0" /\
  Report.transactionCount report = Some 0%Z.
Proof.
  assert (Hempty : empty_code Sample.empty_account Sample.raw_address)
    by (left; reflexivity).
  destruct (@C2_empty_code_report Sample.empty_account Sample.raw_address Hempty)
    as (H1 & H2 & H3 & H4 & H5).
  repeat (split; [assumption|]).
  exact (H5 0%Z 0%Z eq_refl eq_refl eq_refl).
Defined.

(** The balance read fails after [getCode] answered "0x": the report is
    the one of the outer error boundary, without [ethBalance] and
    [transactionCount]. *)
Lemma C2_counterexample :
  empty_code Sample.unreadable_account Sample.raw_address /\
  Report.ethBalance (analyzeAddress Sample.unreadable_account Sample.raw_address) = None /\
  Report.transactionCount (analyzeAddress Sample.unreadable_account Sample.raw_address)
    = None.
Proof. split; [left; reflexivity | split; reflexivity]. Qed.

Lemma C6_getCode_failure_is_caught_witness :
  let report := analyzeAddress Sample.unreachable_code Sample.raw_address in
  checkIfContract Sample.unreachable_code Sample.checksummed = Ok false /\
  Report.isContract report = false /\
  (exists note, Report.error report = JStr note) /\
  fell_back Sample.unreachable_code Sample.raw_address = false /\
  report = account_report Sample.unreachable_code Sample.checksummed 0 0.
Proof.
  destruct (@C6_getCode_failure_is_caught Sample.unreachable_code Sample.raw_address
              "connect ECONNREFUSED" eq_refl eq_refl) as (H1 & H2 & H3 & H4).
  split; [exact H1|]. split; [exact H2|]. split; [exact H3|].
  exact (H4 0%Z 0%Z eq_refl eq_refl).
Defined.

(** The first [getCode] throws: [checkIfContract] answers false instead
    of letting the error through, the outer error boundary is not
    reached, and the report is not the degraded one; its note is the
    not-a-contract note, not the message of the network error. *)
Lemma C6_counterexample :
  getCode Sample.unreachable_code 0 Sample.checksummed = Throw "connect ECONNREFUSED" /\
  checkIfContract Sample.unreachable_code Sample.checksummed = Ok false /\
  fell_back Sample.unreachable_code Sample.raw_address = false /\
  analyzeAddress Sample.unreachable_code Sample.raw_address
    <> fallback_report Sample.raw_address "connect ECONNREFUSED" /\
  Report.error (analyzeAddress Sample.unreachable_code Sample.raw_address)
    = JStr "Address is not a contract".
Proof.
  repeat split; try reflexivity.
  intros H. apply (f_equal Report.error) in H. discriminate.
Qed.

Lemma C8_address_field_witness :
  Report.address (analyzeAddress Sample.empty_account Sample.raw_address)
    = Sample.checksummed /\
  Report.address (analyzeAddress Sample.unreadable_account Sample.raw_address)
    = Sample.raw_address.
Proof.
  split.
  - exact (proj1 (@C8_address_field Sample.empty_account Sample.raw_address) eq_refl).
  - exact (proj2 (@C8_address_field Sample.unreadable_account Sample.raw_address) eq_refl).
Defined.

(** The balance read fails: the report of the outer error boundary
    carries the input string, which is not its checksum-cased form. *)
Lemma C8_counterexample :
  Report.address (analyzeAddress Sample.unreadable_account Sample.raw_address)
    = Sample.raw_address /\
  toChecksumAddress Sample.unreadable_account Sample.raw_address = Sample.checksummed /\
  Report.address (analyzeAddress Sample.unreadable_account Sample.raw_address)
    <> toChecksumAddress Sample.unreadable_account Sample.raw_address.
Proof. repeat split; try reflexivity. discriminate. Qed.

Lemma C10_not_a_contract_note_witness :
  let report := analyzeAddress Sample.empty_account Sample.raw_address in
  Report.isContract report = false /\
  Report.error report = JStr "Address is not a contract" /\
  Js.truthy (Report.error report) = true /\
  Report.ethBalance report <> None /\
  Report.transactionCount report <> None.
Proof.
  apply (@C10_not_a_contract_note Sample.empty_account Sample.raw_address).
  - left. reflexivity.
  - reflexivity.
Defined.

Lemma C7_creation_info_without_timestamp_witness :
  getContractCreationInfo Sample.verified_token Sample.checksummed
    = Ok (Some sample_creation) /\
  exists info standards analysis,
    checkIfVerified Sample.verified_token Sample.checksummed = Ok info /\
    fell_back Sample.verified_token Sample.raw_address = false /\
    analyzeAddress Sample.verified_token Sample.raw_address =
      verified_report Sample.checksummed sample_creation info Sample.token_bytecode
                      standards analysis /\
    Standards.isERC20 standards = true.
Proof.
  assert (Hfound : creation_found Sample.verified_token Sample.checksummed
                     (JObj [("contractCreator", CreationInfo.contractCreator sample_creation);
                            ("txHash", CreationInfo.txHash sample_creation)])).
  { eexists. eexists. repeat split; reflexivity. }
  destruct (@C7_creation_info_without_timestamp Sample.verified_token Sample.raw_address
              _ _ _ eq_refl eq_refl Hfound eq_refl eq_refl)
    as (Hinfo & _ & Hfull).
  { left. eexists. reflexivity. }
  split; [exact Hinfo|].
  destruct (Hfull (VerificationInfo.mk (JBool true) (JStr "Token")
                     (JStr Sample.token_source) Sample.token_abi)
                  Sample.token_bytecode Sample.token_source)
    as (standards & analysis & Hs & _ & Hfb & Hreport).
  - reflexivity.
  - reflexivity.
  - reflexivity.
  - repeat constructor; discriminate.
  - reflexivity.
  - eexists. exists standards, analysis.
    split; [reflexivity|]. split; [exact Hfb|]. split; [exact Hreport|].
    vm_compute in Hs. inversion Hs; subst. reflexivity.
Defined.

(** * Further properties of the code *)

(** ** [detectContractStandards]: when it throws, and what it ignores *)

Lemma functionNames_of_Ok_readable (items : list jsval) (functionNames : list jsval) :
  functionNames_of items = Ok functionNames -> Forall readable items.
Proof.
  unfold functionNames_of. intros H.
  destruct (filterM _ items) as [functions|] eqn:Hf; [clear H|discriminate].
  revert functions Hf. induction items as [|item items IH]; intros functions Hf.
  - constructor.
  - cbn [filterM] in Hf.
    destruct (Js.get item "type") as [ty|] eqn:Hty; [|discriminate].
    cbn [bind] in Hf.
    destruct (filterM _ items) as [rest|] eqn:Hrest; [|discriminate].
    constructor; [now apply get_Ok_readable in Hty | now apply (IH rest)].
Qed.

(** X1: [detectContractStandards] answers exactly when no entry of the
    ABI is [null] or [undefined]; it throws on an array that has such
    an entry, and on nothing else (a value that is not an array gets
    three false flags). *)
Theorem X1_standards_throws_iff_unreadable_entry (address : string) (abi : jsval) :
  (exists standards, detectContractStandards address abi = Ok standards) <->
  Forall readable (entries abi).
Proof.
  split.
  - intros [standards H]. destruct abi as [| | | | |items|]; try constructor.
    unfold detectContractStandards in H. cbn [Js.truthy Js.isArray negb orb] in H.
    destruct (functionNames_of items) as [names|] eqn:Hn; [|discriminate].
    now apply functionNames_of_Ok_readable in Hn.
  - intros H. destruct (detectContractStandards_spec address abi H) as (s & Hs & _).
    now exists s.
Qed.

Lemma flag_eq (b b' : bool) (P : Prop) : (b = true <-> P) -> (b' = true <-> P) -> b = b'.
Proof.
  destruct b, b'; intros [H1 H2] [H3 H4]; try reflexivity;
    [discriminate (H4 (H1 eq_refl)) | discriminate (H2 (H3 eq_refl))].
Qed.

(** Two ABIs with readable entries that declare the same names get the
    same answer. *)
Lemma detectContractStandards_same_names (address : string) (items items' : list jsval) :
  Forall readable items ->
  Forall readable items' ->
  (forall name, Declares items name <-> Declares items' name) ->
  detectContractStandards address (JArr items) = detectContractStandards address (JArr items').
Proof.
  intros Hr Hr' Hsame.
  destruct (detectContractStandards_spec address (JArr items) Hr)
    as ([a b c] & -> & H1 & H2 & H3).
  destruct (detectContractStandards_spec address (JArr items') Hr')
    as ([a' b' c'] & -> & H1' & H2' & H3').
  cbn [entries Standards.isERC20 Standards.isERC721 Standards.isERC1155] in *.
  assert (Hall : forall required,
             Forall (Declares items) required <-> Forall (Declares items') required).
  { intros required. rewrite !Forall_forall.
    split; intros H name Hin; apply Hsame; auto. }
  f_equal. f_equal.
  - apply (flag_eq H1). now rewrite Hall.
  - apply (flag_eq H2). now rewrite Hall.
  - apply (flag_eq H3). now rewrite Hall.
Qed.

(** X2: the answer of [detectContractStandards] does not depend on the
    order of the entries of the ABI, nor on how often an entry
    occurs. *)
Theorem X2_standards_order_irrelevant (address : string) (items items' : list jsval) :
  Forall readable items ->
  (forall item, In item items <-> In item items') ->
  detectContractStandards address (JArr items) = detectContractStandards address (JArr items').
Proof.
  intros Hr Hsame.
  assert (Hr' : Forall readable items').
  { rewrite Forall_forall in *. intros item Hin. apply Hr. now apply Hsame. }
  apply detectContractStandards_same_names; auto.
  intros name. split; intros (item & Hin & H); exists item; split; auto; now apply Hsame.
Qed.

Lemma X2_standards_order_irrelevant_witness :
  detectContractStandards Sample.checksummed (JArr erc20_abi)
  = detectContractStandards Sample.checksummed (JArr (rev erc20_abi ++ erc20_abi)).
Proof.
  apply X2_standards_order_irrelevant.
  - repeat constructor; discriminate.
  - intros item. rewrite in_app_iff, <- in_rev. tauto.
Defined.

(** X3: an entry that is not of type 'function' (an event, a
    constructor, an entry without a type) does not count: inserting or
    removing it leaves the answer of [detectContractStandards] as it
    is. *)
Theorem X3_standards_ignore_other_entries
        (address : string) (before after : list jsval) (entry : jsval) :
  Forall readable (before ++ after) ->
  readable entry ->
  ~ is_function_entry entry ->
  detectContractStandards address (JArr (before ++ entry :: after))
  = detectContractStandards address (JArr (before ++ after)).
Proof.
  intros Hr He Hnot.
  apply detectContractStandards_same_names.
  - apply Forall_app in Hr as [Hb Ha]. apply Forall_app. split; [exact Hb | now constructor].
  - exact Hr.
  - intros name. split; intros (item & Hin & Hty & Hname).
    + exists item. split; [|auto].
      apply in_app_or in Hin as [Hin|[<-|Hin]]; apply in_or_app; auto.
      now exfalso.
    + exists item. split; [|auto].
      apply in_app_or in Hin as [Hin|Hin]; apply in_or_app; [now left | right; now right].
Qed.

Lemma X3_standards_ignore_other_entries_witness :
  detectContractStandards Sample.checksummed (JArr (erc20_abi ++ transfer_event :: []))
  = detectContractStandards Sample.checksummed (JArr (erc20_abi ++ [])).
Proof.
  apply X3_standards_ignore_other_entries.
  - repeat constructor; discriminate.
  - split; discriminate.
  - discriminate.
Defined.

(** ** [analyzeContractSecurity]: what the unchecked-call rule sees *)

Module PatternFacts.
Import Regex.

Lemma append_assoc (a b c : string) : ((a ++ b) ++ c = a ++ (b ++ c))%string.
Proof. induction a as [|x a IH]; simpl; [reflexivity | now rewrite IH]. Qed.

Lemma append_nil_r (a : string) : (a ++ EmptyString)%string = a.
Proof. induction a as [|x a IH]; simpl; [reflexivity | now rewrite IH]. Qed.

Lemma Lang_chr (c : ascii) (s : string) : Lang (chr c) s <-> s = String c EmptyString.
Proof.
  unfold chr. split.
  - inversion 1 as [|p d Hd| | | | |]; subst.
    apply Ascii.eqb_eq in Hd. now subst.
  - intros ->. constructor. apply Ascii.eqb_refl.
Qed.

Lemma Lang_lit (s t : string) : Lang (lit s) t <-> t = s.
Proof.
  revert t. induction s as [|c s IH]; intros t; simpl.
  - split; [now inversion 1 | intros ->; constructor].
  - split.
    + inversion 1 as [| |? ? s1 s2 H1 H2| | | |]; subst.
      apply Lang_chr in H1. apply IH in H2. now subst.
    + intros ->. change (String c s) with (String c EmptyString ++ s)%string.
      constructor; [now apply Lang_chr | now apply IH].
Qed.

Lemma one_line_Lang (s : string) : one_line s = true -> Lang (Star (Class is_dot)) s.
Proof.
  induction s as [|c s IH]; simpl; intros H.
  - constructor.
  - apply andb_true_iff in H as [Hc Hs].
    change (String c s) with (String c EmptyString ++ s)%string.
    constructor; [now constructor | now apply IH].
Qed.

Lemma Lang_Cat (r1 r2 : re) (s : string) :
  Lang (Cat r1 r2) s <-> exists s1 s2, s = (s1 ++ s2)%string /\ Lang r1 s1 /\ Lang r2 s2.
Proof.
  split.
  - inversion 1; subst. eauto.
  - intros (s1 & s2 & -> & H1 & H2). now constructor.
Qed.

(** A text the pattern matches in full: [require], white space, an
    opening parenthesis, anything on one line, [.call], white space, an
    opening parenthesis. *)
Lemma require_call_shape (found : string) :
  Lang require_call found ->
  exists head tail, found = (head ++ ".call" ++ tail)%string.
Proof.
  unfold require_call. intros H.
  apply Lang_Cat in H as (s1 & r1 & -> & _ & H).
  apply Lang_Cat in H as (s2 & r2 & -> & _ & H).
  apply Lang_Cat in H as (s3 & r3 & -> & _ & H).
  apply Lang_Cat in H as (s4 & r4 & -> & _ & H).
  apply Lang_Cat in H as (s5 & r5 & -> & _ & H).
  apply Lang_Cat in H as (s6 & r6 & -> & H6 & _).
  apply Lang_lit in H6. subst s6.
  exists (s1 ++ s2 ++ s3 ++ s4 ++ s5)%string, r6.
  now rewrite !append_assoc.
Qed.

Lemma require_call_needs_call (text : string) :
  Regex.test require_call text = true -> Str.Substring ".call" text.
Proof.
  intros H. apply RegexFacts.test_Lang in H as (before & found & after & -> & H).
  apply require_call_shape in H as (head & tail & ->).
  exists (before ++ head)%string, (tail ++ after)%string.
  now rewrite !append_assoc.
Qed.

Lemma require_call_wrapped (before middle after : string) :
  one_line middle = true ->
  Regex.test require_call
    (before ++ "require(" ++ middle ++ ".call(" ++ after)%string = true.
Proof.
  intros Hline. apply RegexFacts.test_Lang.
  exists before, ("require(" ++ middle ++ ".call(")%string, after.
  split; [now rewrite !append_assoc|].
  unfold require_call.
  change ("require(" ++ middle ++ ".call(")%string
    with ("require" ++ (EmptyString ++ ("(" ++ (EmptyString ++ (middle ++ ".call(")))))%string.
  constructor; [now apply Lang_lit|].
  constructor; [constructor|].
  constructor; [now apply Lang_chr|].
  constructor; [constructor|].
  constructor; [now apply one_line_Lang|].
  change ".call(" with (".call" ++ (EmptyString ++ "("))%string.
  constructor; [now apply Lang_lit|].
  constructor; [constructor | now apply Lang_chr].
Qed.

End PatternFacts.

Lemma unchecked_call_triggered (text : string) :
  In unchecked_call (triggered text) <->
  (Str.includes text ".call(" || Str.includes text ".delegatecall(")
  && negb (Regex.test require_call text) = true.
Proof.
  unfold triggered, security_rules. cbn [filter fst snd map].
  destruct (Str.includes text "call.value" && negb (Str.includes text "ReentrancyGuard")),
    (Str.includes text "tx.origin"),
    ((Str.includes text ".call(" || Str.includes text ".delegatecall(")
     && negb (Regex.test require_call text)),
    (Str.includes text "block.timestamp" || Str.includes text "now"),
    (Str.includes text "selfdestruct" || Str.includes text "suicide");
    cbn [map snd In]; split; intros H; try reflexivity; try discriminate;
    try tauto;
    repeat (destruct H as [H|H]; try discriminate H); try contradiction.
Qed.

(** X4: one low-level call wrapped in [require] on one line silences
    the unchecked-call rule for the whole source text, whatever other
    calls the text makes. *)
Theorem X4_one_checked_call_silences_rule (before middle after : string) :
  one_line middle = true ->
  exists analysis,
    analyzeContractSecurity
      (JStr (before ++ "require(" ++ middle ++ ".call(" ++ after)) = Ok analysis /\
    ~ In unchecked_call (SecurityAnalysis.issues analysis).
Proof.
  intros Hline. eexists. split; [apply analyzeContractSecurity_text|].
  cbn [SecurityAnalysis.issues]. rewrite unchecked_call_triggered.
  rewrite (@PatternFacts.require_call_wrapped before middle after Hline).
  now rewrite andb_false_r.
Qed.

Lemma X4_one_checked_call_silences_rule_witness :
  exists analysis,
    analyzeContractSecurity
      (JStr ("a.call(x); b.delegatecall(y); " ++ "require(" ++ "c" ++ ".call(" ++ "z));"))
    = Ok analysis /\
    ~ In unchecked_call (SecurityAnalysis.issues analysis).
Proof.
  apply (@X4_one_checked_call_silences_rule "a.call(x); b.delegatecall(y); " "c" "z));").
  reflexivity.
Defined.

(** X5: the pattern of the unchecked-call rule looks for [.call] only,
    so a source text whose low-level calls are all [delegatecall]s is
    reported even when each of them is wrapped in [require]. *)
Theorem X5_checked_delegatecall_still_reported (sourceCode : string) :
  Str.Substring ".delegatecall(" sourceCode ->
  ~ Str.Substring ".call" sourceCode ->
  exists analysis,
    analyzeContractSecurity (JStr sourceCode) = Ok analysis /\
    In unchecked_call (SecurityAnalysis.issues analysis).
Proof.
  intros Hd Hc. eexists. split; [apply analyzeContractSecurity_text|].
  cbn [SecurityAnalysis.issues]. rewrite unchecked_call_triggered.
  apply includes_Substring in Hd. rewrite Hd, orb_true_r. cbn [andb].
  destruct (Regex.test require_call sourceCode) eqn:Ht; [|reflexivity].
  exfalso. apply Hc. now apply PatternFacts.require_call_needs_call.
Qed.

Lemma X5_checked_delegatecall_still_reported_witness :
  exists analysis,
    analyzeContractSecurity (JStr "require(target.delegatecall(data));") = Ok analysis /\
    In unchecked_call (SecurityAnalysis.issues analysis).
Proof.
  apply X5_checked_delegatecall_still_reported.
  - exists "require(target", "data));". reflexivity.
  - apply includes_false. reflexivity.
Defined.

(** ** Invariants of the report *)

Section MoreReportFacts.

Variable w : World.

Lemma record_creation_keeps (creationInfo : option CreationInfo.t) (result : Report.t) :
  let result' := record_creation creationInfo result in
  Report.securityAnalysis result' = Report.securityAnalysis result /\
  Report.error result' = Report.error result /\
  Report.ethBalance result' = Report.ethBalance result /\
  Report.transactionCount result' = Report.transactionCount result /\
  Report.sourceCode result' = Report.sourceCode result /\
  Report.abi result' = Report.abi result /\
  Report.contractName result' = Report.contractName result.
Proof. destruct creationInfo; simpl; repeat split. Qed.

(** The two shapes of a report that [classify] returns. *)
Lemma classify_shapes (formattedAddress : string) (result result' : Report.t) :
  classify w formattedAddress result = Ok result' ->
  exists info bytecode,
    checkIfVerified w formattedAddress = Ok info /\
    getCode w 1 formattedAddress = Ok bytecode /\
    Report.isVerified result' = VerificationInfo.isVerified info /\
    Report.contractCode result' = JStr bytecode /\
    Report.ethBalance result' = Report.ethBalance result /\
    Report.transactionCount result' = Report.transactionCount result /\
    ((Report.isVerified result' = JBool true /\
      Report.error result' = Report.error result /\
      Report.sourceCode result' = VerificationInfo.sourceCode info /\
      Report.abi result' = VerificationInfo.abi info /\
      Report.contractName result' = VerificationInfo.contractName info /\
      Report.probableType result' = Report.probableType result /\
      exists standards analysis,
        detectContractStandards formattedAddress (VerificationInfo.abi info) = Ok standards /\
        analyzeContractSecurity (VerificationInfo.sourceCode info) = Ok analysis /\
        Report.standards result' = Some standards /\
        Report.securityAnalysis result' = Some analysis)
     \/
     (Js.truthy (Report.isVerified result') = false /\
      Report.error result' = JStr "Contract is not verified on Etherscan" /\
      Report.sourceCode result' = Report.sourceCode result /\
      Report.abi result' = Report.abi result /\
      Report.contractName result' = Report.contractName result /\
      Report.standards result' = Report.standards result /\
      Report.securityAnalysis result' = Report.securityAnalysis result /\
      Report.probableType result' = Some (detectContractTypeFromBytecode bytecode))).
Proof.
  unfold classify. intros H.
  destruct (checkIfVerified w formattedAddress) as [info|] eqn:Hinfo; [|discriminate].
  cbn [bind] in H.
  destruct (getCode w 1 formattedAddress) as [bytecode|]; [|discriminate].
  cbn [bind] in H. exists info, bytecode.
  pose proof (checkIfVerified_verified _ _ Hinfo) as Hver.
  destruct (Js.truthy (VerificationInfo.isVerified info)) eqn:Hv.
  - destruct (Hver eq_refl) as [Htrue Hsrc]. rewrite Hsrc in H.
    destruct (detectContractStandards _ _) as [standards|] eqn:Hst; [|discriminate].
    cbn [bind andb] in H.
    destruct (analyzeContractSecurity _) as [analysis|] eqn:Han; [|discriminate].
    inversion H; subst; simpl. repeat (split; [reflexivity|]).
    left. rewrite Htrue. repeat (split; [reflexivity|]).
    exists standards, analysis. auto.
  - cbn [bind andb] in H. inversion H; subst; simpl.
    repeat (split; [reflexivity|]). right. rewrite Hv. repeat split.
Qed.

(** The report of [analyzeAddress], by the way the audit ended. *)
Lemma analyzeAddress_shapes (address : string) :
  let report := analyzeAddress w address in
  let formattedAddress := toChecksumAddress w address in
  (exists message,
      fell_back w address = true /\ report = fallback_report address message) \/
  (fell_back w address = false /\
   exists balance txCount,
     getBalance w formattedAddress = Ok balance /\
     getTransactionCount w formattedAddress = Ok txCount /\
     report = account_report w formattedAddress balance txCount) \/
  (fell_back w address = false /\
   Report.isContract report = true /\
   Report.ethBalance report = None /\
   Report.transactionCount report = None /\
   exists info bytecode,
     checkIfVerified w formattedAddress = Ok info /\
     getCode w 1 formattedAddress = Ok bytecode /\
     Report.isVerified report = VerificationInfo.isVerified info /\
     Report.contractCode report = JStr bytecode /\
     ((Report.isVerified report = JBool true /\
       Report.error report = JNull /\
       Report.sourceCode report = VerificationInfo.sourceCode info /\
       Report.abi report = VerificationInfo.abi info /\
       Report.contractName report = VerificationInfo.contractName info /\
       Report.probableType report = None /\
       exists standards analysis,
         detectContractStandards formattedAddress (VerificationInfo.abi info) = Ok standards /\
         analyzeContractSecurity (VerificationInfo.sourceCode info) = Ok analysis /\
         Report.standards report = Some standards /\
         Report.securityAnalysis report = Some analysis)
      \/
      (Js.truthy (Report.isVerified report) = false /\
       Report.error report = JStr "Contract is not verified on Etherscan" /\
       Report.sourceCode report = JNull /\
       Report.abi report = JNull /\
       Report.contractName report = JNull /\
       Report.standards report = None /\
       Report.securityAnalysis report = None /\
       Report.probableType report = Some (detectContractTypeFromBytecode bytecode)))).
Proof.
  cbv zeta. destruct (fell_back w address) eqn:Hfb.
  - left. destruct (fell_back_true _ _ Hfb) as (message & _ & ->). eauto.
  - right. destruct (fell_back_false _ _ Hfb) as (result & Htry & ->).
    unfold analyzeAddress_try in Htry.
    destruct (isAddress w address); cbn [negb] in Htry; [|discriminate].
    destruct (checkIfContract_total w (toChecksumAddress w address)) as [isContract Hc].
    rewrite Hc in Htry. cbn [bind] in Htry. destruct isContract; cbn [negb] in Htry.
    + right. split; [reflexivity|].
      destruct (getContractCreationInfo_total w (toChecksumAddress w address))
        as [creationInfo Hi].
      rewrite Hi in Htry. cbn [bind] in Htry.
      pose proof (record_creation_fields creationInfo
                    (initial_report (toChecksumAddress w address) true))
        as (_ & Hb & Hs & Hp).
      pose proof (record_creation_keeps creationInfo
                    (initial_report (toChecksumAddress w address) true))
        as (Hsa & Herr & Heb & Htc & Hsrc & Habi & Hname).
      destruct (classify_fields _ _ _ Htry) as (_ & Hb' & _);
        [now rewrite Hs | now rewrite Hp |].
      destruct (classify_shapes _ _ Htry)
        as (info & bytecode & Hinfo & Hcode & Hv & Hcc & Heb' & Htc' & Hshape).
      rewrite Hb', Hb, Heb', Heb, Htc', Htc. repeat (split; [reflexivity|]).
      exists info, bytecode. repeat (split; [assumption|]).
      destruct Hshape as [(H1 & H2 & H3 & H4 & H5 & H6 & H7)|(H1 & H2 & H3 & H4 & H5 & H6 & H7 & H8)].
      * left. rewrite H2, H6, Herr, Hp. auto 10.
      * right. rewrite H3, H4, H5, H6, H7, Hsrc, Habi, Hname, Hs, Hsa. auto 10.
    + left. split; [reflexivity|].
      pose proof (not_a_contract_cases w (toChecksumAddress w address)) as H.
      rewrite Htry in H. exact H.
Qed.

(** X6: in every report of [analyzeAddress] the security analysis is
    there exactly when [isVerified] is true: the second operand of
    [isVerified && sourceCode] never decides. *)
Theorem X6_security_analysis_iff_verified (address : string) :
  let report := analyzeAddress w address in
  Report.securityAnalysis report <> None <-> Report.isVerified report = JBool true.
Proof.
  cbv zeta.
  destruct (analyzeAddress_shapes address)
    as [(message & _ & ->)
       |[(_ & balance & txCount & _ & _ & ->)
        |(_ & _ & _ & _ & info & bytecode & _ & _ & _ & _ & Hshape)]].
  - simpl. split; [congruence | discriminate].
  - simpl. split; [congruence | discriminate].
  - destruct Hshape as [(H1 & _ & _ & _ & _ & _ & st & an & _ & _ & _ & H)
                       |(H1 & _ & _ & _ & _ & _ & H & _)].
    + rewrite H, H1. split; [reflexivity | discriminate].
    + rewrite H. split; [congruence|]. intros E. rewrite E in H1. discriminate.
Qed.

(** X7: the [error] property of a report is [null] exactly when
    [isVerified] is true: every other report carries a note, also the
    one of an address that simply is not a contract. *)
Theorem X7_error_null_iff_verified (address : string) :
  let report := analyzeAddress w address in
  Report.error report = JNull <-> Report.isVerified report = JBool true.
Proof.
  cbv zeta.
  destruct (analyzeAddress_shapes address)
    as [(message & _ & ->)
       |[(_ & balance & txCount & _ & _ & ->)
        |(_ & _ & _ & _ & info & bytecode & _ & _ & _ & _ & Hshape)]].
  - simpl. split; discriminate.
  - simpl. split; discriminate.
  - destruct Hshape as [(H1 & H & _)|(H1 & H & _)].
    + rewrite H, H1. split; reflexivity.
    + rewrite H. split; [discriminate|]. intros E. rewrite E in H1. discriminate.
Qed.

(** X8: [ethBalance] and [transactionCount] come together, and a
    report has them exactly when the audit did not end in the outer
    error boundary and [isContract] is false. *)
Theorem X8_balance_iff_account (address : string) :
  let report := analyzeAddress w address in
  (Report.ethBalance report <> None <-> Report.transactionCount report <> None) /\
  (Report.ethBalance report <> None <->
   fell_back w address = false /\ Report.isContract report = false).
Proof.
  cbv zeta.
  destruct (analyzeAddress_shapes address)
    as [(message & Hfb & ->)
       |[(Hfb & balance & txCount & _ & _ & ->)
        |(Hfb & Hc & H1 & H2 & _)]].
  - rewrite Hfb. simpl. repeat split; try congruence. intros [E _]. discriminate.
  - rewrite Hfb. simpl. repeat split; discriminate.
  - rewrite Hfb, Hc, H1, H2. repeat split; try congruence. intros [_ E]. discriminate.
Qed.

(** X9: the report of a contract that is not verified: the note says
    so, source, ABI and name stay [null], there is no security
    analysis, and both [contractCode] and the probable type come from
    the second [getCode], not from the one of the contract check. *)
Theorem X9_unverified_contract_report (address : string) :
  let report := analyzeAddress w address in
  Report.isContract report = true ->
  Js.truthy (Report.isVerified report) = false ->
  Report.error report = JStr "Contract is not verified on Etherscan" /\
  Report.sourceCode report = JNull /\
  Report.abi report = JNull /\
  Report.contractName report = JNull /\
  Report.securityAnalysis report = None /\
  exists bytecode,
    getCode w 1 (toChecksumAddress w address) = Ok bytecode /\
    Report.contractCode report = JStr bytecode /\
    Report.probableType report = Some (detectContractTypeFromBytecode bytecode).
Proof.
  cbv zeta.
  destruct (analyzeAddress_shapes address)
    as [(message & _ & ->)
       |[(_ & balance & txCount & _ & _ & ->)
        |(_ & _ & _ & _ & info & bytecode & _ & Hcode & _ & Hcc & Hshape)]];
    try discriminate.
  intros _ Hv.
  destruct Hshape as [(H1 & _)|(_ & H2 & H3 & H4 & H5 & _ & H7 & H8)].
  - rewrite H1 in Hv. discriminate.
  - repeat (split; [assumption|]). exists bytecode. auto.
Qed.

(** X10: which failures end in the outer error boundary: an address
    that [isAddress] rejects; for an address without code, a failing
    balance or transaction-count read; for a contract, a failing second
    [getCode] or, when it is verified, a throwing standards detection
    or security scan.  Nothing else does: the explorer never makes the
    audit fall back. *)
Theorem X10_fell_back_iff (address : string) :
  let formattedAddress := toChecksumAddress w address in
  fell_back w address = true <->
  isAddress w address = false \/
  (checkIfContract w formattedAddress = Ok false /\
   ((exists message, getBalance w formattedAddress = Throw message) \/
    (exists message, getTransactionCount w formattedAddress = Throw message))) \/
  (checkIfContract w formattedAddress = Ok true /\
   ((exists message, getCode w 1 formattedAddress = Throw message) \/
    (exists info,
        checkIfVerified w formattedAddress = Ok info /\
        Js.truthy (VerificationInfo.isVerified info) = true /\
        ((exists message,
             detectContractStandards formattedAddress (VerificationInfo.abi info)
             = Throw message) \/
         (exists message,
             analyzeContractSecurity (VerificationInfo.sourceCode info)
             = Throw message))))).
Proof.
  cbv zeta. unfold fell_back, analyzeAddress_try.
  destruct (isAddress w address); cbn [negb]; [|split; auto].
  destruct (checkIfContract_total w (toChecksumAddress w address)) as [isContract Hc].
  rewrite Hc. cbn [bind]. destruct isContract; cbn [negb].
  - destruct (getContractCreationInfo_total w (toChecksumAddress w address))
      as [creationInfo ->].
    cbn [bind]. unfold classify.
    destruct (checkIfVerified_total w (toChecksumAddress w address)) as [info Hinfo].
    rewrite Hinfo. cbn [bind].
    pose proof (checkIfVerified_verified _ _ Hinfo) as Hver.
    destruct (getCode w 1 (toChecksumAddress w address)) as [bytecode|message]; cbn [bind].
    + destruct (Js.truthy (VerificationInfo.isVerified info)) eqn:Hv.
      * destruct (Hver eq_refl) as [_ ->].
        destruct (detectContractStandards _ _) as [standards|m1] eqn:Hst; cbn [bind andb].
        -- destruct (analyzeContractSecurity _) as [analysis|m2] eqn:Han; cbn [bind].
           ++ split; [discriminate|].
              intros [H|[[H _]|[_ [[m H]|(info' & E & _ & [[m H]|[m H]])]]]];
                try discriminate; inversion E; subst; congruence.
           ++ split; [|reflexivity]. intros _. right. right. split; [reflexivity|].
              right. exists info. eauto 10.
        -- split; [|reflexivity]. intros _. right. right. split; [reflexivity|].
           right. exists info. eauto 10.
      * cbn [bind andb]. split; [discriminate|].
        intros [H|[[H _]|[_ [[m H]|(info' & E & Hv' & _)]]]]; try discriminate.
        inversion E; subst. congruence.
    + split; [|reflexivity]. intros _. right. right. eauto.
  - unfold not_a_contract.
    destruct (getBalance w _) as [balance|m1]; cbn [bind].
    + destruct (getTransactionCount w _) as [txCount|m2]; cbn [bind].
      * split; [discriminate|].
        intros [H|[[_ [[m H]|[m H]]]|[H _]]]; discriminate.
      * split; [|reflexivity]. intros _. right. left. eauto.
    + split; [|reflexivity]. intros _. right. left. eauto.
Qed.

(** X11: when the second [getCode] fails, the report of the outer
    error boundary says [isContract] false although the contract check
    had just said true. *)
Theorem X11_contract_reported_as_none (address message : string) :
  let formattedAddress := toChecksumAddress w address in
  isAddress w address = true ->
  checkIfContract w formattedAddress = Ok true ->
  getCode w 1 formattedAddress = Throw message ->
  analyzeAddress w address = fallback_report address message /\
  Report.isContract (analyzeAddress w address) = false.
Proof.
  cbv zeta. intros Ha Hc Hcode.
  assert (H : analyzeAddress w address = fallback_report address message).
  { unfold analyzeAddress, analyzeAddress_try. rewrite Ha, Hc. cbn [negb bind].
    destruct (getContractCreationInfo_total w (toChecksumAddress w address)) as [info ->].
    cbn [bind]. unfold classify.
    destruct (checkIfVerified_total w (toChecksumAddress w address)) as [v ->].
    cbn [bind]. now rewrite Hcode. }
  split; [exact H | now rewrite H].
Qed.

End MoreReportFacts.

Lemma X9_unverified_contract_report_witness :
  let report := analyzeAddress MoreSamples.unverified_contract Sample.raw_address in
  Report.error report = JStr "Contract is not verified on Etherscan" /\
  Report.sourceCode report = JNull /\
  Report.abi report = JNull /\
  Report.contractName report = JNull /\
  Report.securityAnalysis report = None /\
  exists bytecode,
    getCode MoreSamples.unverified_contract 1 Sample.checksummed = Ok bytecode /\
    Report.contractCode report = JStr bytecode /\
    Report.probableType report = Some (detectContractTypeFromBytecode bytecode).
Proof.
  apply (@X9_unverified_contract_report MoreSamples.unverified_contract Sample.raw_address);
    reflexivity.
Defined.

Lemma X11_contract_reported_as_none_witness :
  analyzeAddress MoreSamples.code_read_once Sample.raw_address
    = fallback_report Sample.raw_address "timeout of 5000ms exceeded" /\
  Report.isContract (analyzeAddress MoreSamples.code_read_once Sample.raw_address) = false.
Proof.
  apply (@X11_contract_reported_as_none MoreSamples.code_read_once Sample.raw_address
           "timeout of 5000ms exceeded"); reflexivity.
Defined.

(** ** The explorer helpers *)

Section ExplorerFacts.

Variable w : World.

Lemma source_found_first (address : string) (contractData : jsval) :
  source_found w address contractData ->
  exists data result,
    axios_get w (GetSourceCode address) = Ok data /\
    no_first_result data = Ok false /\
    Js.get data "result" = Ok result /\
    Js.get_index result 0 = Ok contractData.
Proof.
  intros (data & result & Hdata & Hstatus & Hresult & Ht & Hfirst & Ht').
  exists data, result. repeat split; auto.
  unfold no_first_result. rewrite Hstatus, Hresult. cbn [bind orM Js.is_str].
  rewrite Ht, Hfirst. cbn [bind negb String.eqb Ascii.eqb Bool.eqb]. now rewrite Ht'.
Qed.

(** X12: [checkIfVerified] on an answer whose [SourceCode] is a string.
    The contract counts as verified exactly when the text is longer
    than two characters and the ABI parses.  A short text gives an
    answer that is not verified but still carries the name and the
    text; an ABI that does not parse gives the bare
    [{ isVerified: false }], without them. *)
Theorem X12_checkIfVerified_string_source
        (address : string) (contractData ContractName ABI : jsval) (text : string) :
  source_found w address contractData ->
  Js.get contractData "SourceCode" = Ok (JStr text) ->
  Js.get contractData "ContractName" = Ok ContractName ->
  Js.get contractData "ABI" = Ok ABI ->
  checkIfVerified w address =
  Ok (if (2 <? String.length text)%nat then
        match JSON_parse w ABI with
        | Ok abi => VerificationInfo.mk (JBool true) ContractName (JStr text) abi
        | Throw _ => VerificationInfo.not_verified
        end
      else
        VerificationInfo.mk (if text =? EmptyString then JStr text else JBool false)
                            ContractName (JStr text) JNull).
Proof.
  intros Hfound Hsource Hname Habi.
  destruct (source_found_first Hfound) as (data & result & Hdata & Hmiss & Hresult & Hfirst).
  unfold checkIfVerified, isVerified_of.
  rewrite Hdata. cbn [bind]. rewrite Hmiss. cbn [bind]. rewrite Hresult. cbn [bind].
  rewrite Hfirst. cbn [bind]. rewrite Hsource, Hname, Habi. cbn [bind Js.truthy].
  destruct text as [|c1 text]; [reflexivity|].
  cbn [String.eqb negb].
  destruct (Js.is_str (JStr (String c1 text)) "{}") eqn:Hbraces.
  - apply is_str_eq in Hbraces. injection Hbraces as -> ->. reflexivity.
  - cbn [Js.get String.eqb Ascii.eqb Bool.eqb bind gt].
    replace (2 <? Z.of_nat (String.length (String c1 text)))%Z
      with (2 <? String.length (String c1 text))%nat.
    + destruct (2 <? String.length (String c1 text))%nat; cbn [Js.truthy bind try_catch].
      * destruct (JSON_parse w ABI); reflexivity.
      * reflexivity.
    + destruct (Nat.ltb_spec 2 (String.length (String c1 text)));
        destruct (Z.ltb_spec 2 (Z.of_nat (String.length (String c1 text))));
        try reflexivity; lia.
Qed.

Ltac crash H := solve [inversion H; subst; simpl in *; congruence].

Ltac advance H :=
  match type of H with
  | try_catch (bind ?m _) _ = _ =>
      destruct m eqn:?; cbn [bind try_catch] in H; [|crash H]
  | try_catch (if ?b then _ else _) _ = _ =>
      destruct b eqn:?; cbn [bind try_catch] in H; try crash H
  end.

Lemma no_first_result_false (data : jsval) :
  no_first_result data = Ok false ->
  exists result first,
    Js.get data "status" = Ok (JStr "1") /\
    Js.get data "result" = Ok result /\
    Js.truthy result = true /\
    Js.get_index result 0 = Ok first /\
    Js.truthy first = true.
Proof.
  unfold no_first_result. intros H.
  destruct (Js.get data "status") as [status|] eqn:Hs; [|discriminate].
  cbn [bind orM] in H.
  destruct (Js.is_str status "1") eqn:H1; cbn [negb] in H; [|discriminate].
  apply is_str_eq in H1. subst status.
  destruct (Js.get data "result") as [result|] eqn:Hr; [|discriminate].
  cbn [bind] in H.
  destruct (Js.truthy result) eqn:Ht; cbn [negb] in H; [|discriminate].
  destruct (Js.get_index result 0) as [first|] eqn:Hf; [|discriminate].
  cbn [bind] in H.
  destruct (Js.truthy first) eqn:Ht'; cbn [negb] in H; [|discriminate].
  exists result, first. auto.
Qed.

(** X13: [getContractCreationInfo] answers creation info exactly when
    the creation lookup has a first result, and then the creator and
    the transaction hash are the properties of that result, whatever
    the transaction and block lookups do; it never throws. *)
Theorem X13_creation_info_iff_found (address : string) (info : CreationInfo.t) :
  getContractCreationInfo w address = Ok (Some info) <->
  exists first,
    creation_found w address first /\
    Js.get first "contractCreator" = Ok (CreationInfo.contractCreator info) /\
    Js.get first "txHash" = Ok (CreationInfo.txHash info) /\
    creation_timestamp w (CreationInfo.txHash info) = Ok (CreationInfo.timestamp info).
Proof.
  split.
  - unfold getContractCreationInfo. intros H.
    do 3 advance H.
    match goal with E : no_first_result _ = Ok false |- _ =>
      apply no_first_result_false in E as (result & first & Hs & Hr & Ht & Hf & Ht') end.
    rewrite Hr in H. cbn [bind try_catch] in H. rewrite Hf in H. cbn [bind try_catch] in H.
    do 3 advance H. inversion H; subst. cbn [CreationInfo.contractCreator CreationInfo.txHash
                                          CreationInfo.timestamp].
    exists first. split; [|auto].
    eexists. exists result. eauto 10.
  - intros (first & (data & result & Hdata & Hs & Hr & Ht & Hf & Ht') & Hc & Hh & Hts).
    unfold getContractCreationInfo, no_first_result.
    rewrite Hdata. cbn [bind]. rewrite Hs, Hr. cbn [bind orM Js.is_str].
    rewrite Ht, Hf. cbn [bind negb String.eqb Ascii.eqb Bool.eqb].
    rewrite Ht'. cbn [negb]. rewrite Hh. cbn [bind]. rewrite Hts. cbn [bind].
    rewrite Hc. cbn [bind try_catch]. now destruct info.
Qed.


End ExplorerFacts.

Lemma X12_checkIfVerified_string_source_witness :
  checkIfVerified MoreSamples.broken_abi Sample.checksummed
  = Ok VerificationInfo.not_verified.
Proof.
  apply (@X12_checkIfVerified_string_source MoreSamples.broken_abi Sample.checksummed
           (JObj [("SourceCode", JStr Sample.token_source);
                  ("ContractName", JStr "Token");
                  ("ABI", JStr "Contract source code not verified")])
           (JStr "Token") (JStr "Contract source code not verified") Sample.token_source).
  - eexists. eexists. repeat split; reflexivity.
  - reflexivity.
  - reflexivity.
  - reflexivity.
Defined.


(** ** The signature extractors *)

Section SignatureFacts.

Variable rt : Runtime.

Lemma function_signature_name (func : jsval) (sig : FunctionSignature.t) :
  function_signature rt func = Ok sig ->
  Js.get func "name" = Ok (FunctionSignature.name sig).
Proof.
  unfold function_signature. intros H.
  repeat match type of H with
         | bind ?m _ = _ => destruct m eqn:?; cbn [bind] in H; [|discriminate]
         end.
  inversion H; subst. reflexivity.
Qed.

Lemma mapM_length {A B} (f : A -> outcome B) (l : list A) (r : list B) :
  mapM f l = Ok r -> List.length r = List.length l.
Proof.
  revert r. induction l as [|x l IH]; intros r H; cbn [mapM] in H.
  - inversion H. reflexivity.
  - destruct (f x); cbn [bind] in H; [|discriminate].
    destruct (mapM f l); cbn [bind] in H; [|discriminate].
    inversion H; subst. simpl. now rewrite (IH _ eq_refl).
Qed.

Lemma signature_names (functions : list jsval) (signatures : list FunctionSignature.t) :
  mapM (function_signature rt) functions = Ok signatures ->
  mapM (fun func => Js.get func "name") functions
  = Ok (map FunctionSignature.name signatures).
Proof.
  revert signatures.
  induction functions as [|func functions IH]; intros signatures H; cbn [mapM] in *.
  - inversion H. reflexivity.
  - destruct (function_signature rt func) as [sig|] eqn:Hsig; cbn [bind] in H; [|discriminate].
    destruct (mapM (function_signature rt) functions) as [sigs|];
      cbn [bind] in H; [|discriminate].
    inversion H; subst. rewrite (function_signature_name _ Hsig). cbn [bind].
    rewrite (IH sigs eq_refl). reflexivity.
Qed.

(** X15: the function names that [extractFunctionSignatures] lists for
    the formatter are the names [detectContractStandards] tests, in the
    same order: whenever the extractor answers, the name collection of
    the detector on the same ABI answers the names of the
    signatures. *)
Theorem X15_extracted_names_are_detected_names
        (abi : jsval) (signatures : list FunctionSignature.t) :
  Js.truthy abi = true ->
  extractFunctionSignatures rt abi = Ok signatures ->
  exists items,
    abi = JArr items /\
    functionNames_of items = Ok (map FunctionSignature.name signatures).
Proof.
  unfold extractFunctionSignatures, functionNames_of. intros Ht H.
  rewrite Ht in H. cbn [negb] in H.
  destruct abi as [| | | | |items|]; try discriminate. exists items. split; [reflexivity|].
  cbn [entries_of_type] in H.
  destruct (filterM _ items) as [functions|]; cbn [bind] in *; [|discriminate].
  now apply signature_names.
Qed.

Lemma filterM_disjoint_length {A} (p q : A -> outcome bool) (l a b : list A) :
  (forall x, p x = Ok true -> q x = Ok true -> False) ->
  filterM p l = Ok a ->
  filterM q l = Ok b ->
  (List.length a + List.length b <= List.length l)%nat.
Proof.
  intros Hdisjoint. revert a b.
  induction l as [|x l IH]; intros a b Ha Hb; cbn [filterM] in *.
  - inversion Ha. inversion Hb. simpl. lia.
  - destruct (p x) as [px|] eqn:Hp; cbn [bind] in Ha; [|discriminate].
    destruct (filterM p l) as [a'|]; cbn [bind] in Ha; [|discriminate].
    destruct (q x) as [qx|] eqn:Hq; cbn [bind] in Hb; [|discriminate].
    destruct (filterM q l) as [b'|]; cbn [bind] in Hb; [|discriminate].
    specialize (IH a' b' eq_refl eq_refl).
    inversion Ha; inversion Hb; subst.
    destruct px, qx; simpl; try lia.
    exfalso. now apply (Hdisjoint x).
Qed.

(** X16: no entry of an ABI is listed both as a function and as an
    event: the two extractors together list at most as many signatures
    as the ABI has entries. *)
Theorem X16_functions_and_events_disjoint
        (abi : jsval) (functions : list FunctionSignature.t)
        (events : list EventSignature.t) :
  extractFunctionSignatures rt abi = Ok functions ->
  extractEventSignatures rt abi = Ok events ->
  (List.length functions + List.length events <= List.length (entries abi))%nat.
Proof.
  unfold extractFunctionSignatures, extractEventSignatures. intros Hf He.
  destruct (Js.truthy abi); cbn [negb] in *.
  - destruct abi as [| | | | |items|]; try discriminate.
    cbn [entries_of_type entries] in *.
    destruct (filterM _ items) as [fs|] eqn:Hfs in Hf; cbn [bind] in Hf; [|discriminate].
    destruct (filterM _ items) as [es|] eqn:Hes in He; cbn [bind] in He; [|discriminate].
    apply mapM_length in Hf, He. rewrite Hf, He.
    refine (filterM_disjoint_length _ _ _ _ Hfs Hes).
    intros x Hp Hq. cbv beta in Hp, Hq.
    destruct (Js.get x "type") as [ty|]; cbn [bind] in *; [|discriminate].
    inversion Hp as [Hp']. inversion Hq as [Hq'].
    apply is_str_eq in Hp', Hq'. congruence.
  - inversion Hf. inversion He. simpl. lia.
Qed.

End SignatureFacts.

Lemma X15_extracted_names_are_detected_names_witness :
  exists items,
    Sample.token_abi = JArr items /\
    functionNames_of items = Ok (map JStr erc20Functions).
Proof.
  destruct (@X15_extracted_names_are_detected_names sample_runtime Sample.token_abi
              (map (fun name => FunctionSignature.mk (JStr name)
                                  (name ++ "()") EmptyString EmptyString (JStr "public")
                                  ("function " ++ name ++ "() public  "))
                   erc20Functions) eq_refl eq_refl) as (items & H1 & H2).
  exists items. split; [exact H1 | exact H2].
Defined.

Lemma X16_functions_and_events_disjoint_witness :
  (6 + 1 <= List.length (entries (JArr (erc20_abi ++ [transfer_event]))))%nat.
Proof.
  apply (@X16_functions_and_events_disjoint sample_runtime
           (JArr (erc20_abi ++ [transfer_event]))
           (map (fun name => FunctionSignature.mk (JStr name)
                               (name ++ "()") EmptyString EmptyString (JStr "public")
                               ("function " ++ name ++ "() public  "))
                erc20Functions)
           [EventSignature.mk (JStr "Transfer") "Transfer()" "event Transfer()"]);
    reflexivity.
Defined.

(** ** What the tool shows *)

Section ToolFacts.

Variable rt : Runtime.
Variable w : World.

(** X17: when the audit ends in the outer error boundary the tool
    shows the fixed text of an account with a balance and a transaction
    count of 'undefined', over the address as it was typed; the message
    of the error is in the report but not in the text, so every such
    failure looks the same. *)
Theorem X17_failed_audit_text (address chain : string) :
  fell_back w address = true ->
  auditContract rt (Ok w) address chain =
  Text.join Text.newline
    [ "=== " ++ Icon.chart ++ " CONTRACT ANALYSIS RESULTS ===";
      Icon.pin ++ " Address: " ++ address;
      Icon.scroll ++ " Is Contract: " ++ Icon.no ++ " No";
      Icon.money ++ " ETH Balance: undefined ETH";
      Icon.cycle ++ " Transaction Count: undefined" ].
Proof.
  intros Hfb. destruct (fell_back_true _ _ Hfb) as (message & _ & Hreport).
  unfold auditContract. cbn [bind]. rewrite Hreport. reflexivity.
Qed.

(** X18: for an address without code whose reads succeed the tool
    shows the balance and the transaction count, and nothing after
    them: the note 'Address is not a contract' of the report is not
    shown. *)
Theorem X18_account_text (address chain : string) :
  fell_back w address = false ->
  Report.isContract (analyzeAddress w address) = false ->
  exists balance txCount,
    getBalance w (toChecksumAddress w address) = Ok balance /\
    getTransactionCount w (toChecksumAddress w address) = Ok txCount /\
    auditContract rt (Ok w) address chain =
    Text.join Text.newline
      [ "=== " ++ Icon.chart ++ " CONTRACT ANALYSIS RESULTS ===";
        Icon.pin ++ " Address: " ++ toChecksumAddress w address;
        Icon.scroll ++ " Is Contract: " ++ Icon.no ++ " No";
        Icon.money ++ " ETH Balance: " ++ fromWei w balance ++ " ETH";
        Icon.cycle ++ " Transaction Count: " ++ Text.of_Z txCount ].
Proof.
  intros Hfb Hc.
  destruct (analyzeAddress_shapes w address)
    as [(message & Hfb' & _)
       |[(_ & balance & txCount & Hb & Ht & Hreport)
        |(_ & Hc' & _)]]; try congruence.
  exists balance, txCount. repeat (split; [assumption|]).
  unfold auditContract. cbn [bind]. rewrite Hreport. reflexivity.
Qed.

Lemma probable_type_not_empty (bytecode : string) :
  (detectContractTypeFromBytecode bytecode =? EmptyString) = false.
Proof.
  unfold detectContractTypeFromBytecode.
  repeat match goal with |- context [if ?b then _ else _] => destruct b end; reflexivity.
Qed.

(** X19: for a contract that is not verified the tool says so twice:
    the formatter's own notice is followed by the note of the report,
    which says the same.  The probable type shown is the one of the
    code read by the second [getCode]. *)
Theorem X19_unverified_contract_text (address chain : string) (creator : list string) :
  let report := analyzeAddress w address in
  Report.isContract report = true ->
  Js.truthy (Report.isVerified report) = false ->
  creator_lines rt report = Ok creator ->
  exists bytecode,
    getCode w 1 (toChecksumAddress w address) = Ok bytecode /\
    auditContract rt (Ok w) address chain =
    Text.join Text.newline
      (push
         (push
            [ "=== " ++ Icon.chart ++ " CONTRACT ANALYSIS RESULTS ===";
              Icon.pin ++ " Address: " ++ toChecksumAddress w address;
              Icon.scroll ++ " Is Contract: " ++ Icon.yes ++ " Yes";
              Icon.lock ++ " Is Verified: " ++ Icon.no ++ " No" ]
            creator)
         [ Icon.magnifier ++ " Probable Contract Type: "
             ++ detectContractTypeFromBytecode bytecode;
           Text.newline ++ Icon.no
             ++ " Contract is not verified on Etherscan. Limited analysis available.";
           Text.newline ++ Icon.warning
             ++ " Info: Contract is not verified on Etherscan" ]).
Proof.
  cbv zeta. intros Hc Hv Hcreator.
  destruct (analyzeAddress_shapes w address)
    as [(message & _ & E)
       |[(_ & balance & txCount & _ & _ & E)
        |(_ & _ & _ & _ & info & bytecode & _ & Hcode & _ & _ & Hshape)]];
    try (rewrite E in Hc; discriminate).
  destruct Hshape as [(H1 & _)|(_ & Herr & _ & _ & _ & _ & _ & Hp)];
    [rewrite H1 in Hv; discriminate|].
  exists bytecode. split; [exact Hcode|].
  assert (Haddr : Report.address (analyzeAddress w address) = toChecksumAddress w address).
  { destruct (fell_back w address) eqn:Hfb.
    - destruct (fell_back_true _ _ Hfb) as (m & _ & E). rewrite E in Hc. discriminate.
    - destruct (fell_back_false _ _ Hfb) as (result & Htry & ->).
      now destruct (analyzeAddress_try_fields _ _ Htry). }
  unfold auditContract, formatAnalysisResults, output_lines. cbn [bind].
  rewrite Hc, Hv, Hcreator. cbn [negb bind].
  unfold error_lines, unverified_lines, heading_lines. rewrite Herr, Hp, Hc, Haddr.
  rewrite probable_type_not_empty.
  cbn [negb Js.truthy String.eqb Text.to_string bind yes_no].
  unfold push. rewrite <- !app_assoc. reflexivity.
Qed.

(** X20: a verified contract whose ABI parsed to something other than
    an array (and not to a falsy value) gets a complete report, with
    three false standards, and yet the tool answers with an error: the
    formatter calls [filter] on the ABI. *)
Theorem X20_abi_not_an_array (address chain : string) (creator : list string) (name : string) :
  let report := analyzeAddress w address in
  Report.isVerified report = JBool true ->
  Js.truthy (Report.abi report) = true ->
  Js.isArray (Report.abi report) = false ->
  creator_lines rt report = Ok creator ->
  Text.to_string rt (Text.or_else (Report.contractName report) (JStr "Unknown")) = Ok name ->
  Report.standards report = Some (Standards.mk false false false) /\
  auditContract rt (Ok w) address chain
  = "Error analyzing contract: abi.filter is not a function".
Proof.
  cbv zeta. intros Hv Ht Harr Hcreator Hname.
  assert (Hc : Report.isContract (analyzeAddress w address) = true /\
               Report.standards (analyzeAddress w address)
               = Some (Standards.mk false false false)).
  { destruct (analyzeAddress_shapes w address)
      as [(message & _ & E)
         |[(_ & balance & txCount & _ & _ & E)
          |(_ & Hc & _ & _ & info & bytecode & _ & _ & _ & _ & Hshape)]];
      try (rewrite E in Hv; discriminate).
    split; [exact Hc|].
    destruct Hshape as [(_ & _ & _ & Habi & _ & _ & st & an & Hst & _ & Hs & _)|(H1 & _)];
      [|rewrite Hv in H1; discriminate].
    rewrite Hs. f_equal. rewrite <- Habi in Hst.
    unfold detectContractStandards in Hst. rewrite Harr in Hst.
    cbn [negb] in Hst. rewrite orb_true_r in Hst. now inversion Hst. }
  destruct Hc as [Hc Hs]. split; [exact Hs|].
  unfold auditContract, formatAnalysisResults, output_lines. cbn [bind].
  rewrite Hc, Hv, Hcreator. cbn [negb bind Js.truthy]. rewrite Hname. cbn [bind].
  unfold abi_lines, extractFunctionSignatures. rewrite Ht. cbn [negb].
  destruct (Report.abi (analyzeAddress w address)); try discriminate; reflexivity.
Qed.

(** X21: the formatter shows at most five functions and at most five
    events, and one more line for each list that is longer: the block
    has two headings, and then these lines. *)
Theorem X21_five_functions_shown (result : Report.t) (lines : list string) :
  Js.truthy (Report.abi result) = true ->
  abi_lines rt result = Ok lines ->
  exists functions events,
    extractFunctionSignatures rt (Report.abi result) = Ok functions /\
    extractEventSignatures rt (Report.abi result) = Ok events /\
    List.length lines =
    (2 + Nat.min 5 (List.length functions) + (if 5 <? List.length functions then 1 else 0)
       + Nat.min 5 (List.length events) + (if 5 <? List.length events then 1 else 0))%nat.
Proof.
  unfold abi_lines. intros Ht H. rewrite Ht in H.
  destruct (extractFunctionSignatures rt _) as [functions|]; cbn [bind] in H; [|discriminate].
  destruct (extractEventSignatures rt _) as [events|]; cbn [bind] in H; [|discriminate].
  destruct (mapM _ (firstn 5 functions)) as [shown_functions|] eqn:Hsf;
    cbn [bind] in H; [|discriminate].
  destruct (mapM _ (firstn 5 events)) as [shown_events|] eqn:Hse;
    cbn [bind] in H; [|discriminate].
  exists functions, events. repeat (split; [reflexivity|]).
  apply mapM_length in Hsf, Hse. rewrite length_firstn in Hsf, Hse.
  inversion H; subst. unfold push, more_line.
  cbn [List.length]. rewrite !length_app. cbn [List.length].
  rewrite Hsf, Hse.
  destruct (5 <? List.length functions)%nat, (5 <? List.length events)%nat;
    cbn [List.length]; lia.
Qed.

End ToolFacts.

Lemma X17_failed_audit_text_witness :
  auditContract sample_runtime (Ok Sample.unreadable_account) Sample.raw_address "eth" =
  Text.join Text.newline
    [ "=== " ++ Icon.chart ++ " CONTRACT ANALYSIS RESULTS ===";
      Icon.pin ++ " Address: " ++ Sample.raw_address;
      Icon.scroll ++ " Is Contract: " ++ Icon.no ++ " No";
      Icon.money ++ " ETH Balance: undefined ETH";
      Icon.cycle ++ " Transaction Count: undefined" ].
Proof.
  apply (@X17_failed_audit_text sample_runtime Sample.unreadable_account
           Sample.raw_address "eth").
  reflexivity.
Defined.

Lemma X18_account_text_witness :
  exists balance txCount,
    getBalance Sample.empty_account Sample.checksummed = Ok balance /\
    getTransactionCount Sample.empty_account Sample.checksummed = Ok txCount /\
    auditContract sample_runtime (Ok Sample.empty_account) Sample.raw_address "eth" =
    Text.join Text.newline
      [ "=== " ++ Icon.chart ++ " CONTRACT ANALYSIS RESULTS ===";
        Icon.pin ++ " Address: " ++ Sample.checksummed;
        Icon.scroll ++ " Is Contract: " ++ Icon.no ++ " No";
        Icon.money ++ " ETH Balance: " ++ fromWei Sample.empty_account balance ++ " ETH";
        Icon.cycle ++ " Transaction Count: " ++ Text.of_Z txCount ].
Proof.
  apply (@X18_account_text sample_runtime Sample.empty_account Sample.raw_address "eth");
    reflexivity.
Defined.

Lemma X19_unverified_contract_text_witness :
  exists bytecode,
    getCode MoreSamples.unverified_contract 1 Sample.checksummed = Ok bytecode /\
    auditContract sample_runtime (Ok MoreSamples.unverified_contract)
                  Sample.raw_address "eth" =
    Text.join Text.newline
      (push
         (push
            [ "=== " ++ Icon.chart ++ " CONTRACT ANALYSIS RESULTS ===";
              Icon.pin ++ " Address: " ++ Sample.checksummed;
              Icon.scroll ++ " Is Contract: " ++ Icon.yes ++ " Yes";
              Icon.lock ++ " Is Verified: " ++ Icon.no ++ " No" ]
            [])
         [ Icon.magnifier ++ " Probable Contract Type: "
             ++ detectContractTypeFromBytecode bytecode;
           Text.newline ++ Icon.no
             ++ " Contract is not verified on Etherscan. Limited analysis available.";
           Text.newline ++ Icon.warning
             ++ " Info: Contract is not verified on Etherscan" ]).
Proof.
  apply (@X19_unverified_contract_text sample_runtime MoreSamples.unverified_contract
           Sample.raw_address "eth" []); reflexivity.
Defined.

Lemma X20_abi_not_an_array_witness :
  Report.standards (analyzeAddress MoreSamples.object_abi Sample.raw_address)
    = Some (Standards.mk false false false) /\
  auditContract sample_runtime (Ok MoreSamples.object_abi) Sample.raw_address "eth"
  = "Error analyzing contract: abi.filter is not a function".
Proof.
  apply (@X20_abi_not_an_array sample_runtime MoreSamples.object_abi
           Sample.raw_address "eth" [] "Token"); reflexivity.
Defined.

Lemma X21_five_functions_shown_witness :
  exists lines functions events,
    abi_lines sample_runtime (analyzeAddress Sample.verified_token Sample.raw_address)
      = Ok lines /\
    extractFunctionSignatures sample_runtime Sample.token_abi = Ok functions /\
    extractEventSignatures sample_runtime Sample.token_abi = Ok events /\
    List.length functions = 6%nat /\
    List.length lines = 8%nat.
Proof.
  destruct (abi_lines sample_runtime
              (analyzeAddress Sample.verified_token Sample.raw_address))
    as [lines|] eqn:Hlines; [|discriminate].
  destruct (@X21_five_functions_shown sample_runtime
              (analyzeAddress Sample.verified_token Sample.raw_address) lines
              eq_refl Hlines) as (functions & events & Hf & He & Hlen).
  exists lines, functions, events.
  split; [reflexivity|]. split; [exact Hf|]. split; [exact He|].
  vm_compute in Hf, He. inversion Hf; inversion He; subst.
  split; [reflexivity | exact Hlen].
Defined.

(** ** The extractor on a well-formed ABI *)

Section WellFormedAbi.

Variable rt : Runtime.

Lemma to_string_text_or (v : jsval) (default : string) :
  text_or_absent v ->
  exists text, Text.to_string rt (Text.or_else v (JStr default)) = Ok text.
Proof.
  intros [->|[text ->]]; unfold Text.or_else; cbn [Js.truthy].
  - eexists. reflexivity.
  - destruct (negb (text =? EmptyString)); eexists; reflexivity.
Qed.

Lemma function_parameter_total (input : jsval) :
  well_formed_parameter input -> exists text, function_parameter rt input = Ok text.
Proof.
  intros (fields & -> & [type Htype] & Hname).
  unfold function_parameter. cbn [Js.get bind]. rewrite Htype. cbn [Text.to_string bind].
  destruct (to_string_text_or EmptyString Hname) as [text ->]. cbn [bind].
  eexists. reflexivity.
Qed.

Lemma parameter_list_total (callee : string) (params : jsval) :
  well_formed_parameters params ->
  exists text, parameter_list callee params (function_parameter rt) = Ok text.
Proof.
  intros [->|(items & -> & Hitems)]; cbn [parameter_list]; [eexists; reflexivity|].
  assert (H : exists texts, mapM (function_parameter rt) items = Ok texts).
  { induction Hitems as [|input items Hinput _ [texts IH]]; cbn [mapM]; [eexists; reflexivity|].
    destruct (function_parameter_total Hinput) as [text ->]. cbn [bind].
    rewrite IH. cbn [bind]. eexists. reflexivity. }
  destruct H as [texts ->]. cbn [bind]. eexists. reflexivity.
Qed.

Lemma function_signature_total (func : jsval) :
  well_formed_function func -> exists sig, function_signature rt func = Ok sig.
Proof.
  intros (fields & -> & [name Hname] & Hin & Hout & Hmut & Hvis).
  unfold function_signature. cbn [Js.get bind].
  destruct (parameter_list_total "func.inputs?.map" Hin) as [inputs ->]. cbn [bind].
  destruct (parameter_list_total "func.outputs?.map" Hout) as [outputs ->]. cbn [bind].
  assert (Hm : exists text,
             (if Js.truthy (Js.lookup fields "stateMutability")
              then Text.to_string rt (Js.lookup fields "stateMutability")
              else Ok EmptyString) = Ok text).
  { destruct Hmut as [->|[text ->]]; cbn [Js.truthy Text.to_string];
      [eexists; reflexivity|].
    destruct (negb (text =? EmptyString)); eexists; reflexivity. }
  destruct Hm as [mutability ->]. cbn [bind].
  rewrite Hname. cbn [Text.to_string bind].
  destruct (to_string_text_or "public" Hvis) as [visibility ->]. cbn [bind].
  eexists. reflexivity.
Qed.

(** X22: on an ABI whose entries can be read and whose function
    entries are well formed, [extractFunctionSignatures] answers, with
    one signature for each name that [detectContractStandards] tests;
    what the other entries hold does not matter. *)
Theorem X22_signatures_of_well_formed_abi (items : list jsval) :
  Forall readable items ->
  (forall item, In item items -> is_function_entry item -> well_formed_function item) ->
  exists signatures,
    extractFunctionSignatures rt (JArr items) = Ok signatures /\
    functionNames_of items = Ok (map FunctionSignature.name signatures).
Proof.
  intros Hread Hwf.
  assert (H : exists signatures, extractFunctionSignatures rt (JArr items) = Ok signatures).
  { unfold extractFunctionSignatures. cbn [Js.truthy negb entries_of_type].
    assert (Hf : exists functions,
               filterM (fun item => ty <- Js.get item "type";;
                                    Ok (Js.is_str ty "function")) items = Ok functions /\
               Forall well_formed_function functions).
    { induction Hread as [|item items Hitem _ IH]; cbn [filterM]; [eexists; split; [reflexivity | constructor]|].
      destruct IH as (functions & -> & Hall).
      { intros x Hin. apply Hwf. now right. }
      destruct (get_readable "type" Hitem) as [ty Hty]. rewrite Hty. cbn [bind].
      destruct (Js.is_str ty "function") eqn:Hfun;
        [|eexists; split; [reflexivity | exact Hall]].
      eexists. split; [reflexivity|]. constructor; [|exact Hall].
      apply Hwf; [now left|]. apply is_str_eq in Hfun. now subst. }
    destruct Hf as (functions & -> & Hall). cbn [bind].
    induction Hall as [|func functions Hfunc _ [signatures IH]]; cbn [mapM];
      [eexists; reflexivity|].
    destruct (function_signature_total Hfunc) as [sig ->]. cbn [bind].
    rewrite IH. cbn [bind]. eexists. reflexivity. }
  destruct H as [signatures H]. exists signatures. split; [exact H|].
  unfold extractFunctionSignatures in H. cbn [Js.truthy negb entries_of_type] in H.
  unfold functionNames_of.
  destruct (filterM _ items) as [functions|]; cbn [bind] in *; [|discriminate].
  now apply (@signature_names rt).
Qed.

End WellFormedAbi.

Lemma X22_signatures_of_well_formed_abi_witness :
  exists signatures,
    extractFunctionSignatures sample_runtime (JArr [balanceOf_entry; transfer_event; JNum 7])
    = Ok signatures /\
    functionNames_of [balanceOf_entry; transfer_event; JNum 7]
    = Ok (map FunctionSignature.name signatures).
Proof.
  apply X22_signatures_of_well_formed_abi.
  - repeat constructor; unfold balanceOf_entry, transfer_event; discriminate.
  - intros item [<-|[<-|[<-|[]]]] Hfun; try discriminate.
    eexists. split; [reflexivity|]. cbn [Js.lookup String.eqb Ascii.eqb Bool.eqb].
    split; [eexists; reflexivity|].
    split.
    { right. eexists. split; [reflexivity|]. constructor; [|constructor].
      eexists. split; [reflexivity|]. split; [eexists; reflexivity|].
      right. eexists. reflexivity. }
    split.
    { right. eexists. split; [reflexivity|]. constructor; [|constructor].
      eexists. split; [reflexivity|]. split; [eexists; reflexivity|].
      left. reflexivity. }
    split; [right; eexists; reflexivity | left; reflexivity].
Defined.
